(** * fredAPI: credential lookup, FRED fetcher, series loader, merge and fit

    A shallow embedding of the three Python scripts of the repository

    - [fred_key.py]: [_get_fred_api_key] and the module-level [fred_key];
    - [fred_cpi_unemployment_linear_regression.py]: [fred_get], the two
      series loads, the merge, the regression;
    - [fred_phillips_curve.py]: [fred_get] and the two series loads.

    Python objects that are mutated in place (the [params] dictionaries) live
    in a store of dictionaries addressed by location; everything the scripts
    do to the outside world (database, HTTP, console) is recorded in a trace.
    The outside world itself is an oracle, [world]; the numerical routine
    of the regression library is part of it. *)

From Stdlib Require Import ZArith QArith Qfield Lqa Lia String Ascii List.
From stdpp Require Import base option gmap strings list pretty.

Set Warnings "-register-all".

Open Scope string_scope.
Open Scope Z_scope.

(** ** Strings *)

(** The line feed, written [\n] in the Python sources. *)
Definition nl : string := String (ascii_of_nat 10) EmptyString.

(** The double quote character, escaped with a backslash in the Python
    sources. *)
Definition dq : string := String (ascii_of_nat 34) EmptyString.

(** Python's [s[:n]] on a [str]: the first [n] characters, or all of [s] when
    it is shorter.  One [ascii] of the model stands for one character, so
    the model speaks of texts whose characters have a code below 256. *)
Fixpoint str_prefix (n : nat) (s : string) : string :=
  match n, s with
  | O, _ => EmptyString
  | S _, EmptyString => EmptyString
  | S n', String c r => String c (str_prefix n' r)
  end.
Arguments str_prefix : simpl never.

(** ** HTTP responses and Python exceptions *)

(** One element of the [observations] array of a FRED payload. *)
Record observation := mkObs { date : string; value : string }.

(** The decoded JSON body, as far as the scripts look into it: the
    [observations] member, absent or an array of records. *)
Record payload := mkPayload { observations : option (list observation) }.

(** What [resp.json()] makes of the body.  A body that is not JSON makes
    it raise the decoder's error, whose text names the place where decoding
    stopped.  A JSON value that is not an object (an array, a string, a
    number, a boolean, null) is returned as it is, and subscripting it with
    [observations] raises a [TypeError] whose text names the value's
    type. *)
Inductive decoded : Type :=
| NotJson (decoder_msg : string)
| JsonObject (p : payload)
| JsonOther (subscript_msg : string).

(** A [requests.Response].  [json_body] is what [resp.json()] makes of
    [text]. *)
Record Response := mkResponse {
  status_code : Z;
  reason : string;
  url : string;
  text : string;
  json_body : decoded
}.

(** The exceptions the scripts can meet.  [RuntimeError] carries its
    [__cause__] ([raise ... from exc]).  [KeyboardInterrupt] stands for the
    exceptions that derive from [BaseException] only. *)
Inductive exn : Type :=
| RuntimeError (msg : string) (cause : option exn)
| ImportError (msg : string)
| PyodbcError (msg : string)
| HTTPError (msg : string) (response : Response)
| RequestException (msg : string)
| ValueError (msg : string)
| TypeError (msg : string)
| KeyError (key : string)
| KeyboardInterrupt.

(** [isinstance(exc, Exception)]. *)
Definition is_Exception (e : exn) : bool :=
  match e with
  | KeyboardInterrupt => false
  | _ => true
  end.

(** [isinstance(exc, ImportError)]. *)
Definition is_ImportError (e : exn) : bool :=
  match e with
  | ImportError _ => true
  | _ => false
  end.

(** [isinstance(exc, requests.HTTPError)]. *)
Definition is_HTTPError (e : exn) : bool :=
  match e with
  | HTTPError _ _ => true
  | _ => false
  end.

(** [str(exc)], as interpolated into an f-string. *)
Definition exn_str (e : exn) : string :=
  match e with
  | RuntimeError m _ => m
  | ImportError m => m
  | PyodbcError m => m
  | HTTPError m _ => m
  | RequestException m => m
  | ValueError m => m
  | TypeError m => m
  | KeyError k => "'" ++ k ++ "'"
  | KeyboardInterrupt => ""
  end.

(** ** Floating-point values

    A float of the scripts is a binary64 number: a finite one is held as
    the rational it denotes, beside NaN and the two infinities.  The sign
    of zero is not kept. *)

Inductive fval : Type :=
| FNum (q : Q)
| FNaN
| FInf (negative : bool).

(** [pd.isna] on a float: only NaN is missing, infinities are not. *)
Definition isna (v : fval) : bool :=
  match v with
  | FNaN => true
  | _ => false
  end.

(** A date-indexed frame with the one column [value], rows in frame
    order. *)
Definition Series : Type := list (Z * fval).

(** A row of the merged frame: the date and the two renamed columns,
    [CPI YoY %] (from [value_cpi]) and [Unemployment %] (from
    [value_unemp]). *)
Record merged_row := mkRow {
  row_date : Z;
  cpi_yoy : fval;
  unemployment : fval
}.
(** What the script reads of a fitted [LinearRegression]: [reg.intercept_]
    and [reg.coef_[0]]. *)
Record FitResult := mkFit { intercept_ : Q; coef_ : Q }.

(** ** The outside world *)

(** Dictionaries are Python objects: a [dict] value is a location in the
    store, so that two names for one dictionary see each other's updates. *)
Definition loc := nat.

(** A column value of a fetched row: SQL [NULL] or text. *)
Inductive sqlval := SqlNull | SqlText (s : string).

(** What the scripts do to the world, in program order. *)
Inductive event : Type :=
| EvDbConnect (conn : string)
| EvDbExecute (sql : string)
| EvDbFetchone
| EvDbCommit
| EvDbRollback
| EvHttpGet (target : string) (sent : gmap string string)
| EvPrint (line : string)
| EvPrintSeries (head : Series)
| EvPrintMerged (head : list merged_row)
| EvPrintFit (a b : Q)
| EvPlot (points : list merged_row) (a b : Q).

(** What [requests.get] does: it answers, or fails before any answer
    (connection refused, DNS failure, ...). *)
Inductive http_outcome :=
| HttpAnswer (r : Response)
| HttpFailure (msg : string).

(** The world as an oracle.  Each database call either raises a
    [pyodbc.Error] ([Some msg]) or succeeds; [db_fetchone] gives the first
    column of the first row, or no row.  The HTTP server may answer
    depending on everything that happened before.  [lstsq] is the numerical
    part of the installed regression library: from a validated predictor
    column and response column it computes the intercept and the slope in
    binary64 arithmetic, by a routine that is not part of the scripts.  It
    is taken to return two finite numbers on every validated input; about
    their rounding nothing is assumed. *)
Record world := mkWorld {
  pyodbc_installed : bool;
  db_connect : string -> option string;
  db_execute : string -> option string;
  db_fetchone : string + option sqlval;
  db_commit : option string;
  db_rollback : option string;
  http : list event -> string -> gmap string string -> http_outcome;
  lstsq : list Q -> list Q -> FitResult
}.

(** ** Program state and the monad of scripts *)

Record state := mkState {
  dicts : gmap loc (gmap string string);
  trace : list event
}.

Definition initial : state := mkState ∅ [].

Inductive outcome (A : Type) : Type :=
| Returns (a : A)
| Raises (e : exn).
Arguments Returns {A} a.
Arguments Raises {A} e.

Definition M (A : Type) : Type := state -> outcome A * state.

Definition ret {A} (a : A) : M A := fun s => (Returns a, s).

Definition raise {A} (e : exn) : M A := fun s => (Raises e, s).

Definition bind {A B} (m : M A) (k : A -> M B) : M B :=
  fun s =>
    match m s with
    | (Returns a, s') => k a s'
    | (Raises e, s') => (Raises e, s')
    end.

(** [try: m  except: h]: the handler sees the state the body left. *)
Definition try_except {A} (m : M A) (h : exn -> M A) : M A :=
  fun s =>
    match m s with
    | (Returns a, s') => (Returns a, s')
    | (Raises e, s') => h e s'
    end.

Declare Scope py_scope.
Delimit Scope py_scope with py.
Notation "x <- m ;; k" := (bind m (fun x => k))
  (at level 100, m at next level, right associativity) : py_scope.
Notation "m ;;; k" := (bind m (fun _ => k))
  (at level 100, right associativity) : py_scope.
Open Scope py_scope.

Definition emit (e : event) : M unit :=
  fun s => (Returns tt, mkState (dicts s) (trace s ++ [e])).

(** [print(line)]. *)
Definition print (line : string) : M unit := emit (EvPrint line).

(** A dictionary display [{...}]: a fresh object. *)
Definition new_dict (d : gmap string string) : M loc :=
  fun s =>
    let l := fresh (dom (dicts s)) in
    (Returns l, mkState (<[l := d]> (dicts s)) (trace s)).

(** Reading a dictionary object; a dangling location cannot arise from
    [new_dict] and is reported as a [KeyError]. *)
Definition read_dict (l : loc) : M (gmap string string) :=
  fun s =>
    match dicts s !! l with
    | Some d => (Returns d, s)
    | None => (Raises (KeyError "dangling dictionary"), s)
    end.

(** [d[k] = v]. *)
Definition dict_setitem (l : loc) (k v : string) : M unit :=
  fun s =>
    match dicts s !! l with
    | Some d => (Returns tt, mkState (<[l := <[k := v]> d]> (dicts s)) (trace s))
    | None => (Raises (KeyError "dangling dictionary"), s)
    end.

(** ** [fred_key.py] *)

Definition server : string := "Don_PC\SQLEXPRESS".
Definition database : string := "Main".

Definition conn_str : string :=
  "DRIVER={ODBC Driver 17 for SQL Server};"
  ++ "SERVER=" ++ server ++ ";"
  ++ "DATABASE=" ++ database ++ ";"
  ++ "Trusted_Connection=yes;".

Definition key_query : string :=
  nl ++ "                SELECT TOP 1 api" ++ nl
     ++ "                FROM Main.fred.LKP_API_KEY" ++ nl
     ++ "            ".

(** A database call: record it, then raise what the driver raises. *)
Definition db_call (ev : event) (r : option string) : M unit :=
  emit ev ;;;
  match r with
  | Some msg => raise (PyodbcError msg)
  | None => ret tt
  end.

(** [cursor.fetchone()]. *)
Definition fetchone (w : world) : M (option sqlval) :=
  emit EvDbFetchone ;;;
  match db_fetchone w with
  | inl msg => raise (PyodbcError msg)
  | inr row => ret row
  end.

(** [with pyodbc.connect(conn_str) as cnxn: body]: the connection's
    [__exit__] commits when the body left without an exception and rolls
    back when it left with one; an exception of [__exit__] itself takes the
    place of the one in flight.  The connection is in manual-commit mode,
    the default of [pyodbc.connect]. *)
Definition with_connect {A} (w : world) (body : M A) : M A :=
  db_call (EvDbConnect conn_str) (db_connect w conn_str) ;;;
  a <- try_except body
         (fun exc => db_call EvDbRollback (db_rollback w) ;;; raise exc) ;;
  db_call EvDbCommit (db_commit w) ;;;
  ret a.

(** [not row or not row[0]]: no row, a [NULL] or an empty text. *)
Definition no_key (row : option sqlval) : bool :=
  match row with
  | None => true
  | Some SqlNull => true
  | Some (SqlText s) => if decide (s = "") then true else false
  end.

Definition no_key_msg : string :=
  "No API key found in Main.fred.LKP_API_KEY.api".

Definition wrap_msg (exc : exn) : string :=
  "Could not retrieve the FRED API key from the database." ++ nl
  ++ "Original exception: " ++ exn_str exc.

(** [row[0]] for a row that passed the test above. *)
Definition row0 (row : option sqlval) : string :=
  match row with
  | Some (SqlText s) => s
  | _ => ""
  end.

Definition _get_fred_api_key (w : world) : M string :=
  try_except
    (with_connect w
       (db_call (EvDbExecute key_query) (db_execute w key_query) ;;;
        row <- fetchone w ;;
        if no_key row
        then raise (RuntimeError no_key_msg None)
        else ret (row0 row)))
    (fun exc =>
       if is_Exception exc
       then raise (RuntimeError (wrap_msg exc) (Some exc))
       else raise exc).

(** Executing the module [fred_key]: [import pyodbc], then the module-level
    [fred_key = _get_fred_api_key()]. *)
Definition import_fred_key_module (w : world) : M string :=
  (if pyodbc_installed w
   then ret tt
   else raise (ImportError "No module named 'pyodbc'")) ;;;
  _get_fred_api_key w.

Definition import_hint : string :=
  "Could not import your FRED key." ++ nl
  ++ "Create a file called `fred_key.py` with:" ++ nl ++ nl
  ++ "    fred_key = " ++ dq ++ "YOUR_ACTUAL_KEY" ++ dq ++ nl
  ++ "or set the variable directly below.".

(** [try: from fred_key import fred_key  except ImportError as exc: ...],
    the first statement of both scripts. *)
Definition import_fred_key (w : world) : M string :=
  try_except (import_fred_key_module w)
    (fun exc =>
       if is_ImportError exc
       then raise (RuntimeError import_hint (Some exc))
       else raise exc).

(** ** [fred_get], the request wrapper of both scripts *)

Definition BASE_URL : string := "https://api.stlouisfed.org/fred/".

Definition get_trace : M (list event) := fun s => (Returns (trace s), s).

(** [requests.get(url, params=params)]: one request, carrying the
    dictionary as it is at the time of the call. *)
Definition requests_get (w : world) (target : string) (params : loc)
  : M Response :=
  d <- read_dict params ;;
  hist <- get_trace ;;
  emit (EvHttpGet target d) ;;;
  match http w hist target d with
  | HttpAnswer r => ret r
  | HttpFailure msg => raise (RequestException msg)
  end.

(** [Response.raise_for_status] of the requests library. *)
Definition raise_for_status (r : Response) : M unit :=
  if (400 <=? status_code r) && (status_code r <? 500) then
    raise (HTTPError (pretty (status_code r) ++ " Client Error: " ++ reason r
                      ++ " for url: " ++ url r) r)
  else if (500 <=? status_code r) && (status_code r <? 600) then
    raise (HTTPError (pretty (status_code r) ++ " Server Error: " ++ reason r
                      ++ " for url: " ++ url r) r)
  else ret tt.

(** The two copies of [fred_get] differ only in the mark that opens the
    failure message. *)
Definition fred_get_marked (mark : string) (w : world) (fred_key : string)
    (endpoint : string) (params : loc) : M Response :=
  let target := BASE_URL ++ endpoint in
  d <- read_dict params ;;
  match d !! "api_key" with
  | None => dict_setitem params "api_key" fred_key
  | Some _ => ret tt
  end ;;;
  resp <- requests_get w target params ;;
  try_except (raise_for_status resp)
    (fun exc =>
       if is_HTTPError exc then
         print (nl ++ mark ++ " Request to " ++ target ++ " failed.") ;;;
         print ("   Status: " ++ pretty (status_code resp)) ;;;
         print ("   Response: " ++ str_prefix 200 (text resp) ++ " …") ;;;
         raise exc
       else raise exc) ;;;
  ret resp.

(** [fred_get] of [fred_cpi_unemployment_linear_regression.py]. *)
Definition fred_get : world -> string -> string -> loc -> M Response :=
  fred_get_marked "".

(** [fred_get] of [fred_phillips_curve.py]. *)
Definition fred_get_phillips : world -> string -> string -> loc -> M Response :=
  fred_get_marked "❌".

(** ** Python's [float(str)] *)

(** The blanks [float] strips at both ends of a string: tab to carriage
    return and the space, and the two blanks of the Latin-1 range (next
    line, no-break space).  The separators 28 to 31 are not among them. *)
Definition is_space (c : ascii) : bool :=
  let n := Z.of_nat (nat_of_ascii c) in
  ((9 <=? n) && (n <=? 13)) || (n =? 32) || (n =? 133) || (n =? 160).

Definition digit_val (c : ascii) : option Z :=
  let n := Z.of_nat (nat_of_ascii c) in
  if (48 <=? n) && (n <=? 57) then Some (n - 48) else None.

Definition is_digit (c : ascii) : bool :=
  match digit_val c with
  | Some _ => true
  | None => false
  end.

Definition lower (c : ascii) : ascii :=
  let n := nat_of_ascii c in
  if (65 <=? Z.of_nat n) && (Z.of_nat n <=? 90)
  then ascii_of_nat (n + 32)
  else c.

Fixpoint lstrip (s : list ascii) : list ascii :=
  match s with
  | c :: r => if is_space c then lstrip r else s
  | [] => []
  end.

Definition strip (s : list ascii) : list ascii :=
  rev (lstrip (rev (lstrip s))).

(** Underscores are digit separators: each one must stand between two
    digits; [prev] is the character just read. *)
Fixpoint drop_underscores (prev : ascii) (s : list ascii)
  : option (list ascii) :=
  match s with
  | [] => if Ascii.eqb prev "_" then None else Some []
  | c :: r =>
      if Ascii.eqb c "_" then
        if is_digit prev then drop_underscores c r else None
      else if Ascii.eqb prev "_" && negb (is_digit c) then None
      else option_map (cons c) (drop_underscores c r)
  end.

Fixpoint take_digits (s : list ascii) : list Z * list ascii :=
  match s with
  | c :: r =>
      match digit_val c with
      | Some d => let '(ds, rest) := take_digits r in (d :: ds, rest)
      | None => ([], s)
      end
  | [] => ([], [])
  end.

Definition digits_value (ds : list Z) : Z :=
  fold_left (fun acc d => 10 * acc + d) ds 0.

Definition take_sign (s : list ascii) : bool * list ascii :=
  match s with
  | c :: r =>
      if Ascii.eqb c "-" then (true, r)
      else if Ascii.eqb c "+" then (false, r)
      else (false, s)
  | [] => (false, [])
  end.

(** The rest of a number after its mantissa: nothing, or [e]/[E], an
    optional sign and at least one digit, up to the end of the string. *)
Definition parse_exponent (s : list ascii) : option Z :=
  match s with
  | [] => Some 0
  | c :: r =>
      if Ascii.eqb (lower c) "e" then
        let '(neg, r1) := take_sign r in
        let '(ds, r2) := take_digits r1 in
        match ds, r2 with
        | _ :: _, [] => Some (if neg then - digits_value ds else digits_value ds)
        | _, _ => None
        end
      else None
  end.

(** [digits [. digits] [exponent]] or [. digits [exponent]]: the digits
    read as one integer, and the power of ten it is to be multiplied by. *)
Definition parse_number (s : list ascii) : option (Z * Z) :=
  let '(ip, r1) := take_digits s in
  let '(fp, r2) :=
    match r1 with
    | c :: r => if Ascii.eqb c "." then take_digits r else ([], r1)
    | [] => ([], r1)
    end in
  match (ip ++ fp)%list with
  | [] => None
  | ds =>
      match parse_exponent r2 with
      | Some e => Some (digits_value ds, e - Z.of_nat (length fp))
      | None => None
      end
  end.

(** *** Rounding to binary64

    The float for a decimal text is the binary64 number nearest to its
    value, ties going to the even mantissa; beyond the largest finite
    number it is an infinity, and close enough to zero it is a subnormal
    number or zero. *)

(** [n / d] rounded to the nearest integer, ties to even; [d] positive. *)
Definition round_half_even (n d : Z) : Z :=
  let q := n / d in
  let r := n mod d in
  if 2 * r <? d then q
  else if d <? 2 * r then q + 1
  else if Z.even q then q else q + 1.

(** The ratio [n / d] divided by [2 ^ k], as a ratio. *)
Definition scale2 (n d k : Z) : Z * Z :=
  if 0 <=? k then (n, d * 2 ^ k) else (n * 2 ^ (- k), d).

(** The exponent of the highest bit of [n / d]; [n] and [d] positive. *)
Definition floor_log2_ratio (n d : Z) : Z :=
  let l := Z.log2 n - Z.log2 d in
  let '(n', d') := scale2 n d l in
  if d' <=? n' then l else l - 1.

(** [q * 2 ^ k] as a rational. *)
Definition scaled (q k : Z) : Q :=
  if 0 <=? k then inject_Z (q * 2 ^ k)
  else Qred (Qmake q (Z.to_pos (2 ^ (- k)))).

(** The binary64 value of [n / d] with the given sign: [n] not negative,
    [d] positive.  The mantissa has 53 bits, or fewer at the least
    exponent, -1074. *)
Definition to_binary64 (negative : bool) (n d : Z) : fval :=
  if n =? 0 then FNum 0
  else
    let k := Z.max (floor_log2_ratio n d - 52) (- 1074) in
    let '(n', d') := scale2 n d k in
    let q := round_half_even n' d' in
    if (0 <=? k) && (2 ^ 1024 <=? q * 2 ^ k) then FInf negative
    else FNum (if negative then Qred (- scaled q k) else scaled q k).

(** The value [m * 10 ^ e] of a parsed number, as a float. *)
Definition decimal_to_float (negative : bool) (m e : Z) : fval :=
  if 0 <=? e then to_binary64 negative (m * 10 ^ e) 1
  else to_binary64 negative m (10 ^ (- e)).

Definition parse_inf_nan (negative : bool) (s : list ascii) : option fval :=
  let t := string_of_list_ascii (map lower s) in
  if decide (t = "inf") then Some (FInf negative)
  else if decide (t = "infinity") then Some (FInf negative)
  else if decide (t = "nan") then Some FNaN
  else None.

(** Python's [float(s)] for a string [s]; [None] where Python raises
    [ValueError]. *)
Definition py_float (s : string) : option fval :=
  match drop_underscores zero (strip (list_ascii_of_string s)) with
  | None => None
  | Some cs =>
      let '(neg, body) := take_sign cs in
      match parse_inf_nan neg body with
      | Some v => Some v
      | None =>
          match parse_number body with
          | Some (m, e) => Some (decimal_to_float neg m e)
          | None => None
          end
      end
  end.

(** ** Dates and [pd.to_datetime]

    A [Timestamp] is a count of nanoseconds since 1970-01-01, a signed
    64-bit integer whose least value is reserved.  The model reads the
    format the FRED API writes, [YYYY-MM-DD]. *)

Definition is_leap (y : Z) : bool :=
  (y mod 4 =? 0) && (negb (y mod 100 =? 0) || (y mod 400 =? 0)).

Definition days_in_month (y m : Z) : Z :=
  if m =? 2 then (if is_leap y then 29 else 28)
  else if (m =? 4) || (m =? 6) || (m =? 9) || (m =? 11) then 30
  else 31.

(** Days from 1970-01-01 to the given day of the proleptic Gregorian
    calendar. *)
Definition days_from_civil (y m d : Z) : Z :=
  let y' := if m <=? 2 then y - 1 else y in
  let era := y' / 400 in
  let yoe := y' - era * 400 in
  let doy := (153 * (if 2 <? m then m - 3 else m + 9) + 2) / 5 + d - 1 in
  let doe := yoe * 365 + yoe / 4 - yoe / 100 + doy in
  era * 146097 + doe - 719468.

Definition ns_per_day : Z := 86400 * 10 ^ 9.

Definition int64_max : Z := 2 ^ 63 - 1.

Definition all_digits (cs : list ascii) : option Z :=
  if forallb is_digit cs
  then Some (digits_value (omap digit_val cs))
  else None.

Definition parse_iso_date (s : string) : option (Z * Z * Z) :=
  match list_ascii_of_string s with
  | [y1; y2; y3; y4; s1; m1; m2; s2; d1; d2] =>
      if Ascii.eqb s1 "-" && Ascii.eqb s2 "-" then
        match all_digits [y1; y2; y3; y4], all_digits [m1; m2],
              all_digits [d1; d2] with
        | Some y, Some m, Some d =>
            if (1 <=? y) && (1 <=? m) && (m <=? 12)
               && (1 <=? d) && (d <=? days_in_month y m)
            then Some (y, m, d) else None
        | _, _, _ => None
        end
      else None
  | _ => None
  end.

(** [pd.to_datetime] on one string, for the calendar dates the API
    writes: a date in the form [YYYY-MM-DD] that a nanosecond [Timestamp]
    holds is read as that instant.  Every other string is an error here,
    with a text that stands for the one of pandas' [ValueError]; pandas
    itself reads more spellings of a date, and what it says of the rest
    differs with its version. *)
Definition to_datetime (s : string) : string + Z :=
  match parse_iso_date s with
  | None => inl ("time data '" ++ s ++ "' does not match format '%Y-%m-%d'")
  | Some (y, m, d) =>
      let ns := days_from_civil y m d * ns_per_day in
      if (- int64_max <=? ns) && (ns <=? int64_max)
      then inr ns
      else inl ("Out of bounds nanosecond timestamp: " ++ s)
  end.

(** ** The series loader: lines 77-80 (and 101-104) of the regression
    script, 81-84 and 107-110 of the Phillips-curve script *)

Fixpoint traverse {A B E} (f : A -> E + B) (l : list A) : E + list B :=
  match l with
  | [] => inr []
  | a :: r =>
      match f a with
      | inl e => inl e
      | inr b =>
          match traverse f r with
          | inl e => inl e
          | inr bs => inr (b :: bs)
          end
      end
  end.

(** One cell of [astype(float)].  The text of the error quotes the cell as
    [repr] does: for printable characters other than the quote and the
    backslash, the cell between single quotes. *)
Definition astype_float (s : string) : string + fval :=
  match py_float s with
  | Some v => inr v
  | None => inl ("could not convert string to float: '" ++ s ++ "'")
  end.

(** [pd.DataFrame(observations)], [pd.to_datetime] on the date column,
    [set_index], [astype(float)] on the value column.  A frame built from
    no record has no column, so that selecting [date] fails.  Rows stay in
    the order of the records. *)
Definition load_series (obs : list observation) : outcome Series :=
  match obs with
  | [] => Raises (KeyError "date")
  | _ =>
      match traverse to_datetime (map date obs) with
      | inl msg => Raises (ValueError msg)
      | inr idx =>
          match traverse astype_float (map value obs) with
          | inl msg => Raises (ValueError msg)
          | inr vals => Returns (zip idx vals)
          end
      end
  end.

(** ** The merge: lines 113-119 of the regression script *)

(** [pd.merge(left, right, left_index=True, right_index=True)]: the inner
    join on the index; a date that occurs several times pairs with every
    match. *)
Definition inner_join (left right : Series) : list merged_row :=
  flat_map
    (fun l =>
       map (fun r => mkRow (fst l) (snd l) (snd r))
           (List.filter (fun r => fst r =? fst l) right))
    left.

(** [DataFrame.dropna()]: keep the rows without a missing cell. *)
Definition dropna (rows : list merged_row) : list merged_row :=
  List.filter (fun r => negb (isna (cpi_yoy r)) && negb (isna (unemployment r)))
              rows.

Definition merge (cpi_df unemp_df : Series) : list merged_row :=
  dropna (inner_join cpi_df unemp_df).

(** ** The regression: lines 128-135 of the regression script *)

Definition finite (v : fval) : option Q :=
  match v with
  | FNum q => Some q
  | _ => None
  end.

Definition Qsum (l : list Q) : Q := fold_right Qplus 0%Q l.

Definition Qmean (l : list Q) : Q := (Qsum l / inject_Z (Z.of_nat (length l)))%Q.

Definition centred (l : list Q) : list Q :=
  map (fun v => (v - Qmean l)%Q) l.

Definition dot (u v : list Q) : Q :=
  Qsum (map (fun p => (fst p * snd p)%Q) (combine u v)).

(** [LinearRegression().fit(X, y)] for one predictor: the input is
    validated (finite, at least one sample) and handed to the library's
    numerical routine.  The text of the error for a value that is not
    finite is the one for an infinite value; for a NaN, which a frame that
    went through [dropna] does not hold, the library's text differs. *)
Definition linear_regression_fit (w : world) (X y : list fval)
  : outcome FitResult :=
  match mapM finite X with
  | None =>
      Raises (ValueError "Input X contains infinity or a value too large for dtype('float64').")
  | Some xs =>
      match xs with
      | [] =>
          Raises (ValueError "Found array with 0 sample(s) (shape=(0, 1)) while a minimum of 1 is required by LinearRegression.")
      | _ =>
          match mapM finite y with
          | None =>
              Raises (ValueError "Input y contains infinity or a value too large for dtype('float64').")
          | Some ys => Returns (lstsq w xs ys)
          end
      end
  end.

(** [X = merged_df[[CPI YoY %]].values], [y = merged_df[Unemployment %].values],
    [reg.fit(X, y)]. *)
Definition fit (w : world) (merged_df : list merged_row)
  : outcome FitResult :=
  linear_regression_fit w (map cpi_yoy merged_df) (map unemployment merged_df).

(** ** The two scripts *)

Definition lift {A} (o : outcome A) : M A := fun s => (o, s).

(** [resp.json()[observations]]. *)
Definition json_observations (resp : Response) : M (list observation) :=
  match json_body resp with
  | NotJson msg => raise (ValueError msg)
  | JsonOther msg => raise (TypeError msg)
  | JsonObject p =>
      match observations p with
      | None => raise (KeyError "observations")
      | Some l => ret l
      end
  end.

Definition start_date : string := "2000-01-01".
Definition end_date : string := "2025-08-31".

Definition series_params (series_id units : string) : gmap string string :=
  list_to_map
    [("series_id", series_id); ("observation_start", start_date);
     ("observation_end", end_date); ("frequency", "m"); ("units", units);
     ("file_type", "json")].

Definition cpi_series_id : string := "CPIAUCSL".
Definition unemp_series_id : string := "UNRATE".

(** One fetch-and-load block of a script. *)
Definition pull (get : string -> loc -> M Response)
    (series_id units title : string) : M Series :=
  params <- new_dict (series_params series_id units) ;;
  resp <- get "series/observations" params ;;
  obs <- json_observations resp ;;
  df <- lift (load_series obs) ;;
  print title ;;;
  emit (EvPrintSeries (firstn 5 df)) ;;;
  ret df.

(** [fred_cpi_unemployment_linear_regression.py], top to bottom. *)
Definition regression_script (w : world) : M FitResult :=
  fred_key <- import_fred_key w ;;
  cpi_df <- pull (fred_get w fred_key) cpi_series_id "pc1"
                 (nl ++ " CPI observations YoY% (first 5 rows):") ;;
  unemp_df <- pull (fred_get w fred_key) unemp_series_id "lin"
                   (nl ++ " Unemployment % observations (first 5 rows):") ;;
  let merged_df := merge cpi_df unemp_df in
  print (nl ++ " Merged data (first 5 rows):") ;;;
  emit (EvPrintMerged (firstn 5 merged_df)) ;;;
  reg <- lift (fit w merged_df) ;;
  emit (EvPrintFit (intercept_ reg) (coef_ reg)) ;;;
  emit (EvPlot merged_df (intercept_ reg) (coef_ reg)) ;;;
  ret reg.

(** [fred_phillips_curve.py], top to bottom. *)
Definition phillips_script (w : world) : M Series :=
  fred_key <- import_fred_key w ;;
  pull (fred_get_phillips w fred_key) "CPIAUCSL" "pc1"
       (nl ++ "✅ CPI observations YoY% (first 5 rows):") ;;;
  pull (fred_get_phillips w fred_key) "UNRATE" "lin"
       (nl ++ "✅ Unemployment % observations (first 5 rows):").

(** ** Vocabulary of the properties *)

Definition is_http_get (ev : event) : bool :=
  match ev with
  | EvHttpGet _ _ => true
  | _ => false
  end.

(** No request has left the machine. *)
Definition no_network_call (t : list event) : Prop :=
  Forall (fun ev => is_http_get ev = false) t.

(** The query parameters that go on the wire for a caller's dictionary. *)
Definition with_key (fred_key : string) (d : gmap string string)
  : gmap string string :=
  match d !! "api_key" with
  | None => <["api_key" := fred_key]> d
  | Some _ => d
  end.

(** Statuses for which [raise_for_status] raises. *)
Definition error_status (r : Response) : bool :=
  (400 <=? status_code r) && (status_code r <? 600).

(** The three lines [fred_get] prints before it re-raises. *)
Definition failure_report (mark target : string) (r : Response) : list event :=
  [EvPrint (nl ++ mark ++ " Request to " ++ target ++ " failed.");
   EvPrint ("   Status: " ++ pretty (status_code r));
   EvPrint ("   Response: " ++ str_prefix 200 (text r) ++ " …")].

(** The message [raise_for_status] gives its [HTTPError]. *)
Definition http_error_msg (r : Response) : string :=
  pretty (status_code r)
  ++ (if status_code r <? 500 then " Client Error: " else " Server Error: ")
  ++ reason r ++ " for url: " ++ url r.

(** The state once [fred_get] has sent its request from state [s], where
    the caller's dictionary [params] held [d]. *)
Definition after_request (fred_key target : string) (params : loc)
    (d : gmap string string) (s : state) : state :=
  mkState (<[params := with_key fred_key d]> (dicts s))
          (trace s ++ [EvHttpGet target (with_key fred_key d)]).

Definition reported (mark target : string) (r : Response) (s : state)
  : state :=
  mkState (dicts s) (trace s ++ failure_report mark target r).

(** Dates of a series that carry a value (not NaN). *)
Definition valid_dates (t : Series) : gset Z :=
  list_to_set (map fst (List.filter (fun r => negb (isna (snd r))) t)).

Definition merged_dates (m : list merged_row) : gset Z :=
  list_to_set (map row_date m).

Fixpoint strictly_increasing (l : list Z) : bool :=
  match l with
  | a :: r =>
      match r with
      | b :: _ => (a <? b) && strictly_increasing r
      | [] => true
      end
  | [] => true
  end.






(** A numerical routine without rounding error, for the sample worlds: the
    columns are centred, the slope is the least-squares solution of minimum
    norm on the centred data (the pseudo-inverse of a zero column is zero)
    and the intercept is recovered from the means. *)
Definition lstsq1 (xc yc : list Q) : Q :=
  if Qeq_bool (dot xc xc) 0 then 0%Q else (dot xc yc / dot xc xc)%Q.

Definition exact_lstsq (xs ys : list Q) : FitResult :=
  let b := lstsq1 (centred xs) (centred ys) in
  mkFit (Qmean ys - Qmean xs * b)%Q b.

(** ** Concrete inputs *)

Definition obs_resp (code : Z) (why : string) (obs : list observation)
  : Response :=
  mkResponse code why "https://api.stlouisfed.org/fred/series/observations"
             "{}" (JsonObject (mkPayload (Some obs))).

Definition three_months : list observation :=
  [mkObs "2020-01-01" "1.0"; mkObs "2020-02-01" "3.0"; mkObs "2020-03-01" "2.0"].

(** A database that holds the given first row, and a server that answers
    every request with [r]. *)
Definition world_of (row : option sqlval) (r : Response) : world :=
  mkWorld true (fun _ => None) (fun _ => None) (inr row) None None
          (fun _ _ _ => HttpAnswer r) exact_lstsq.

Definition w_no_row : world := world_of None (obs_resp 200 "OK" three_months).

Definition w_ok : world :=
  world_of (Some (SqlText "abcdef")) (obs_resp 200 "OK" three_months).

Definition w_304 : world :=
  world_of (Some (SqlText "abcdef")) (obs_resp 304 "Not Modified" []).

Definition w_404 : world :=
  world_of (Some (SqlText "abcdef")) (obs_resp 404 "Not Found" []).

(** A store with one caller dictionary at location 0. *)
Definition one_dict (d : gmap string string) : state :=
  mkState {[ 0%nat := d ]} [].





(** A payload whose second record carries the missing-value marker. *)
Definition with_sentinel : list observation :=
  [mkObs "2020-01-01" "1.5"; mkObs "2020-02-01" "."].

(** A payload whose records are not in date order. *)
Definition unordered : list observation :=
  [mkObs "2020-02-01" "1.5"; mkObs "2020-01-01" "2.5"].

(** ** The fitted line of the plot: lines 149-151 of the regression
    script *)






(** ** Further vocabulary *)

(** The one address both scripts request. *)
Definition observations_url : string := BASE_URL ++ "series/observations".

(** The requests of a trace, oldest first. *)
Definition http_gets (t : list event) : list (string * gmap string string) :=
  flat_map (fun ev =>
              match ev with
              | EvHttpGet target sent => [(target, sent)]
              | _ => []
              end) t.

(** The parameters of a series request once the credential is in. *)
Definition sent_params (fred_key series_id units : string)
  : gmap string string :=
  <["api_key" := fred_key]> (series_params series_id units).

(** The events of a lookup that goes through. *)
Definition lookup_events : list event :=
  [EvDbConnect conn_str; EvDbExecute key_query; EvDbFetchone; EvDbCommit].

(** How many rows of a series carry a value on date [d]. *)
Definition valid_count (d : Z) (t : Series) : nat :=
  length (List.filter (fun r => (fst r =? d) && negb (isna (snd r))) t).

(** How many rows of a merged frame are on date [d]. *)
Definition merged_count (d : Z) (m : list merged_row) : nat :=
  length (List.filter (fun r => row_date r =? d) m).

(** A record as the API writes it: the date is a calendar date in the
    form [YYYY-MM-DD] that a [Timestamp] can hold, and the value is a text
    of ASCII characters. *)
Definition is_ascii_text (s : string) : bool :=
  forallb (fun c => (nat_of_ascii c <? 128)%nat) (list_ascii_of_string s).

Definition api_record (o : observation) : bool :=
  match to_datetime (date o) with
  | inr _ => is_ascii_text (value o)
  | inl _ => false
  end.



(** Two answers with a good status and a body the scripts cannot use: a
    page of HTML, and the JSON array without elements. *)
Definition html_page : Response :=
  mkResponse 200 "OK" "https://api.stlouisfed.org/fred/series/observations"
             "<html>" (NotJson "Expecting value: line 1 column 1 (char 0)").

Definition json_array : Response :=
  mkResponse 200 "OK" "https://api.stlouisfed.org/fred/series/observations"
             "[]" (JsonOther "list indices must be integers or slices, not str").

(** A machine without the database driver. *)
Definition w_no_driver : world :=
  mkWorld false (fun _ => None) (fun _ => None) (inr None) None None
          (fun _ _ _ => HttpFailure "unreachable") exact_lstsq.

(** A database whose connection is refused. *)
Definition w_refused : world :=
  mkWorld true (fun _ => Some "08001") (fun _ => None) (inr None) None None
          (fun _ _ _ => HttpFailure "unreachable") exact_lstsq.

(** A network that is down. *)
Definition w_offline : world :=
  mkWorld true (fun _ => None) (fun _ => None) (inr (Some (SqlText "abcdef")))
          None None (fun _ _ _ => HttpFailure "Connection refused") exact_lstsq.

(** ** The credential lookup *)

Lemma no_key_false_row0 (row : option sqlval) :
  no_key row = false -> row = Some (SqlText (row0 row)) /\ row0 row <> "".
Proof.
  destruct row as [[|t]|]; simpl; try discriminate.
  destruct (decide (t = "")); [discriminate | auto].
Qed.

Lemma no_key_text (key : string) :
  key <> "" -> no_key (Some (SqlText key)) = false.
Proof. intros H. cbn. destruct (decide (key = "")); [contradiction | reflexivity]. Qed.

Lemma bind_raises {A B} (m : M A) (k : A -> M B) (s s' : state) (e : exn) :
  m s = (Raises e, s') -> bind m k s = (Raises e, s').
Proof. intros H. unfold bind. rewrite H. reflexivity. Qed.

Lemma no_network_db (t : list event) :
  forallb (fun ev => negb (is_http_get ev)) t = true -> no_network_call t.
Proof.
  intros H. apply Forall_forall. intros ev Hev.
  apply list_elem_of_In in Hev.
  rewrite forallb_forall in H. apply negb_true_iff, H, Hev.
Qed.

Ltac run_lookup :=
  unfold _get_fred_api_key, with_connect, try_except, db_call, fetchone,
    bind, emit, raise, ret.

(** Every way the lookup can go: the events it adds are database events,
    the store is untouched, and it ends with the stored key or with a
    [RuntimeError] around the exception met on the way. *)
Lemma lookup_cases (w : world) (s : state) :
  exists t,
    no_network_call t
    /\ snd (_get_fred_api_key w s) = mkState (dicts s) (trace s ++ t)
    /\ ((exists key,
           fst (_get_fred_api_key w s) = Returns key
           /\ db_fetchone w = inr (Some (SqlText key)) /\ key <> "")
        \/ (exists e,
              fst (_get_fred_api_key w s)
                = Raises (RuntimeError (wrap_msg e) (Some e))
              /\ is_Exception e = true)).
Proof.
  run_lookup.
  destruct (db_connect w conn_str) as [m1|];
    [|destruct (db_execute w key_query) as [m2|]];
    [| |destruct (db_fetchone w) as [m3|row];
        [|destruct (no_key row) eqn:Hk]];
    destruct (db_rollback w) as [m4|]; destruct (db_commit w) as [m5|];
    simpl; rewrite <- ?app_assoc;
    eexists; (split; [|split; [reflexivity|]]);
    try (apply no_network_db; reflexivity);
    try (right; eexists; split; reflexivity).
  all: left; exists (row0 row); split; [reflexivity|];
    destruct (no_key_false_row0 row Hk) as [Hr Hne];
    split; [f_equal; exact Hr | exact Hne].
Qed.


(** With the driver installed, importing the module is the lookup: a
    [RuntimeError] is not an [ImportError], so the scripts' handler lets it
    through. *)
Lemma import_is_lookup (w : world) (s : state) :
  pyodbc_installed w = true ->
  import_fred_key w s = _get_fred_api_key w s.
Proof.
  intros Hi. unfold import_fred_key, import_fred_key_module, try_except.
  rewrite Hi. unfold bind at 1, ret at 1.
  destruct (lookup_cases w s) as (t & _ & _ & [(key & H & _) | (e & H & _)]);
    destruct (_get_fred_api_key w s) as [o s']; cbn [fst] in H; subst o;
    reflexivity.
Qed.

(** When every database call goes through and the first column of the
    first row is a non-empty text, the lookup returns that text. *)
Lemma lookup_returns_key (w : world) (s : state) (key : string) :
  db_connect w conn_str = None ->
  db_execute w key_query = None ->
  db_fetchone w = inr (Some (SqlText key)) ->
  key <> "" ->
  db_commit w = None ->
  _get_fred_api_key w s
  = (Returns key, mkState (dicts s) (trace s ++ lookup_events)).
Proof.
  intros Hc He Hf Hne Hm. run_lookup.
  rewrite Hc, He, Hf. pose proof (no_key_text key Hne) as Hk.
  simpl in *. rewrite Hk, Hm. simpl. rewrite <- !app_assoc. reflexivity.
Qed.

(** When the table gives no row, a [NULL] or an empty text, the lookup
    fails; if the database calls themselves go through, the error quotes
    the missing-key message. *)
Lemma lookup_no_key (w : world) (s : state) (row : option sqlval) :
  db_fetchone w = inr row ->
  no_key row = true ->
  exists e s',
    _get_fred_api_key w s = (Raises (RuntimeError (wrap_msg e) (Some e)), s')
    /\ (db_connect w conn_str = None ->
        db_execute w key_query = None ->
        db_rollback w = None ->
        e = RuntimeError no_key_msg None).
Proof.
  intros Hf Hk. run_lookup. rewrite Hf.
  destruct (db_connect w conn_str) as [m1|];
    [|destruct (db_execute w key_query) as [m2|]];
    destruct (db_rollback w) as [m4|]; simpl; rewrite ?Hk; simpl;
    do 2 eexists; (split; [reflexivity|]);
    intros H1 H2 H3; try discriminate; reflexivity.
Qed.

(** C7.  The lookup yields the key stored in the table, a non-empty string,
    or it fails with a [RuntimeError] whose message names the failure.
    When it fails, both scripts stop with that error, and nothing was sent
    over the network.  It fails in particular when the table has no row or
    an empty value, with the missing-key message when the database calls
    themselves go through.  It does return the key when the database calls
    go through and the stored value is a non-empty text, and the scripts
    then hold that key before any network call. *)
Theorem credential_lookup_or_abort (w : world) :
  pyodbc_installed w = true ->
  ((exists key s',
      _get_fred_api_key w initial = (Returns key, s')
      /\ db_fetchone w = inr (Some (SqlText key)) /\ key <> "")
   \/ (exists e s',
         _get_fred_api_key w initial
           = (Raises (RuntimeError (wrap_msg e) (Some e)), s')
         /\ regression_script w initial
              = (Raises (RuntimeError (wrap_msg e) (Some e)), s')
         /\ phillips_script w initial
              = (Raises (RuntimeError (wrap_msg e) (Some e)), s')
         /\ no_network_call (trace s')))
  /\ (forall row, db_fetchone w = inr row -> no_key row = true ->
      exists e s',
        _get_fred_api_key w initial
          = (Raises (RuntimeError (wrap_msg e) (Some e)), s')
        /\ (db_connect w conn_str = None ->
            db_execute w key_query = None ->
            db_rollback w = None ->
            e = RuntimeError no_key_msg None))
  /\ (forall key,
        db_connect w conn_str = None ->
        db_execute w key_query = None ->
        db_fetchone w = inr (Some (SqlText key)) ->
        key <> "" ->
        db_commit w = None ->
        exists s',
          _get_fred_api_key w initial = (Returns key, s')
          /\ import_fred_key w initial = (Returns key, s')
          /\ no_network_call (trace s')).
Proof.
  intros Hi.
  pose proof (import_is_lookup w initial Hi) as Himp.
  split; [|split].
  - destruct (lookup_cases w initial)
      as (t & Ht & Hs & [(key & H & Hrow & Hne) | (e & H & _)]);
      destruct (_get_fred_api_key w initial) as [o s'];
      cbn [fst snd] in H, Hs; subst o s'.
    + left. exists key. eexists. repeat split; assumption.
    + right. exists e. eexists. split; [reflexivity|].
      split; [|split].
      * unfold regression_script. apply bind_raises. exact Himp.
      * unfold phillips_script. apply bind_raises. exact Himp.
      * exact Ht.
  - intros row Hrow Hk. exact (lookup_no_key w initial row Hrow Hk).
  - intros key Hc He Hf Hne Hm.
    pose proof (lookup_returns_key w initial key Hc He Hf Hne Hm) as Hret.
    eexists. split; [exact Hret|]. split; [rewrite Himp; exact Hret|].
    apply no_network_db. reflexivity.
Qed.

Lemma credential_lookup_or_abort_witness :
  (exists s',
     _get_fred_api_key w_ok initial = (Returns "abcdef", s')
     /\ import_fred_key w_ok initial = (Returns "abcdef", s')
     /\ no_network_call (trace s'))
  /\ (exists e s',
        _get_fred_api_key w_no_row initial
          = (Raises (RuntimeError (wrap_msg e) (Some e)), s')
        /\ (db_connect w_no_row conn_str = None ->
            db_execute w_no_row key_query = None ->
            db_rollback w_no_row = None ->
            e = RuntimeError no_key_msg None)).
Proof.
  split.
  - apply (proj2 (proj2 (credential_lookup_or_abort w_ok eq_refl)) "abcdef");
      [reflexivity | reflexivity | reflexivity | discriminate | reflexivity].
  - exact (proj1 (proj2 (credential_lookup_or_abort w_no_row eq_refl)) None
                 eq_refl eq_refl).
Defined.

(** ** The request wrapper *)

Lemma raise_for_status_run (r : Response) (s : state) :
  raise_for_status r s =
    if error_status r then (Raises (HTTPError (http_error_msg r) r), s)
    else (Returns tt, s).
Proof.
  unfold raise_for_status, error_status, http_error_msg, raise, ret.
  destruct (400 <=? status_code r) eqn:H4, (status_code r <? 500) eqn:H5,
           (500 <=? status_code r) eqn:H50, (status_code r <? 600) eqn:H6;
    simpl; try reflexivity; lia.
Qed.

(** The whole of [fred_get], by cases on what the server does. *)
Lemma fred_get_run (mark : string) (w : world) (key endpoint : string)
    (params : loc) (s : state) (d : gmap string string) :
  dicts s !! params = Some d ->
  fred_get_marked mark w key endpoint params s =
    let target := BASE_URL ++ endpoint in
    let s1 := after_request key target params d s in
    match http w (trace s) target (with_key key d) with
    | HttpFailure msg => (Raises (RequestException msg), s1)
    | HttpAnswer r =>
        if error_status r
        then (Raises (HTTPError (http_error_msg r) r), reported mark target r s1)
        else (Returns r, s1)
    end.
Proof.
  intros Hd. unfold fred_get_marked, after_request, reported, with_key.
  cbv zeta. unfold bind at 1. unfold read_dict at 1. rewrite Hd.
  assert (Htail : forall (r : Response) (s1 : state),
    bind (try_except (raise_for_status r)
            (fun exc =>
               if is_HTTPError exc then
                 print (nl ++ mark ++ " Request to " ++ (BASE_URL ++ endpoint)
                        ++ " failed.") ;;;
                 print ("   Status: " ++ pretty (status_code r)) ;;;
                 print ("   Response: " ++ str_prefix 200 (text r) ++ " …") ;;;
                 raise exc
               else raise exc))
         (fun _ => ret r) s1
    = if error_status r
      then (Raises (HTTPError (http_error_msg r) r),
            mkState (dicts s1)
                    (trace s1 ++ failure_report mark (BASE_URL ++ endpoint) r))
      else (Returns r, s1)).
  { intros r s1. unfold bind at 1, try_except. rewrite raise_for_status_run.
    destruct (error_status r); [|reflexivity].
    cbn [is_HTTPError]. unfold bind, print, emit, raise, failure_report.
    cbn [dicts trace]. rewrite <- !app_assoc. reflexivity. }
  destruct (d !! "api_key") as [v|] eqn:Hk.
  - unfold bind at 1. unfold ret at 1. unfold bind at 1.
    unfold requests_get, bind at 1 2 3, read_dict, get_trace, emit. rewrite Hd.
    cbn [dicts trace]. rewrite (insert_id _ _ _ Hd).
    destruct (http w (trace s) _ d) as [r|msg]; [|destruct s; reflexivity].
    unfold ret at 1. rewrite Htail. destruct s; reflexivity.
  - unfold bind at 1. unfold dict_setitem at 1. rewrite Hd. unfold bind at 1.
    unfold requests_get, bind at 1 2 3, read_dict, get_trace, emit.
    cbn [dicts trace]. rewrite lookup_insert_eq. cbn [dicts trace].
    destruct (http w (trace s) _ _) as [r|msg]; [|reflexivity].
    unfold ret at 1. rewrite Htail. reflexivity.
Qed.

Lemma str_prefix_length (n : nat) (s : string) :
  (String.length (str_prefix n s) <= n)%nat.
Proof.
  revert s. induction n as [|n IH]; intros s.
  - destruct s; cbv; lia.
  - destruct s as [|c r]; [cbv; lia|].
    change (str_prefix (S n) (String c r)) with (String c (str_prefix n r)).
    cbn [String.length]. specialize (IH r). lia.
Qed.

Lemma failure_report_prints (mark target : string) (r : Response) :
  no_network_call (failure_report mark target r).
Proof. repeat constructor. Qed.

(** C9.  [fred_get] (either copy) works on the caller's dictionary itself.
    If it lacked [api_key], after the call it maps [api_key] to the module
    credential and every other entry is as before; if it had [api_key], the
    dictionary and the whole store are as before and the value it already
    held is the one sent.  The request carries the dictionary as it is after
    this step, and no other dictionary of the store is touched. *)
Theorem fred_get_params_in_place (mark : string) (w : world)
    (key endpoint : string) (params : loc) (s : state)
    (d : gmap string string) :
  dicts s !! params = Some d ->
  exists d' rest,
    let s' := snd (fred_get_marked mark w key endpoint params s) in
    dicts s' !! params = Some d'
    /\ trace s' = (trace s ++ EvHttpGet (BASE_URL ++ endpoint) d' :: rest)%list
    /\ no_network_call rest
    /\ (forall l, l <> params -> dicts s' !! l = dicts s !! l)
    /\ (d !! "api_key" = None ->
        d' !! "api_key" = Some key
        /\ forall k, k <> "api_key" -> d' !! k = d !! k)
    /\ (forall v, d !! "api_key" = Some v ->
        d' = d /\ dicts s' = dicts s /\ d' !! "api_key" = Some v).
Proof.
  intros Hd. rewrite (fred_get_run mark w key endpoint params s d Hd).
  cbv zeta. exists (with_key key d).
  assert (Hstore : dicts (after_request key (BASE_URL ++ endpoint) params d s)
                     !! params = Some (with_key key d))
    by apply lookup_insert_eq.
  assert (Hframe : forall l, l <> params ->
            dicts (after_request key (BASE_URL ++ endpoint) params d s) !! l
            = dicts s !! l).
  { intros l Hl. unfold after_request. cbn [dicts].
    apply lookup_insert_ne. congruence. }
  assert (Hnew : d !! "api_key" = None ->
            with_key key d !! "api_key" = Some key
            /\ forall k, k <> "api_key" -> with_key key d !! k = d !! k).
  { intros Hk. unfold with_key. rewrite Hk. split.
    - apply lookup_insert_eq.
    - intros k Hne. apply lookup_insert_ne. congruence. }
  assert (Hold : forall v, d !! "api_key" = Some v ->
            with_key key d = d
            /\ dicts (after_request key (BASE_URL ++ endpoint) params d s)
               = dicts s
            /\ with_key key d !! "api_key" = Some v).
  { intros v Hk. unfold after_request, with_key. rewrite Hk. cbn [dicts].
    repeat split; [apply insert_id|]; assumption. }
  assert (Hdone : forall (s' : state) (rest : list event),
            dicts s'
            = dicts (after_request key (BASE_URL ++ endpoint) params d s) ->
            trace s'
            = (trace s
               ++ EvHttpGet (BASE_URL ++ endpoint) (with_key key d)
               :: rest)%list ->
            no_network_call rest ->
            dicts s' !! params = Some (with_key key d)
            /\ trace s'
               = (trace s
                  ++ EvHttpGet (BASE_URL ++ endpoint) (with_key key d)
                  :: rest)%list
            /\ no_network_call rest
            /\ (forall l, l <> params -> dicts s' !! l = dicts s !! l)
            /\ (d !! "api_key" = None ->
                with_key key d !! "api_key" = Some key
                /\ forall k, k <> "api_key" -> with_key key d !! k = d !! k)
            /\ (forall v, d !! "api_key" = Some v ->
                with_key key d = d /\ dicts s' = dicts s
                /\ with_key key d !! "api_key" = Some v)).
  { intros s' rest Hs' Ht Hrest. rewrite Hs'.
    split; [exact Hstore|]. split; [exact Ht|]. split; [exact Hrest|].
    split; [exact Hframe|]. split; [exact Hnew | exact Hold]. }
  destruct (http w (trace s) (BASE_URL ++ endpoint) (with_key key d))
    as [r|msg].
  - destruct (error_status r).
    + exists (failure_report mark (BASE_URL ++ endpoint) r).
      apply Hdone; [reflexivity | | apply failure_report_prints].
      cbn [snd reported after_request trace]. rewrite <- app_assoc.
      reflexivity.
    + exists []. apply Hdone; [reflexivity | reflexivity | constructor].
  - exists []. apply Hdone; [reflexivity | reflexivity | constructor].
Qed.

Lemma fred_get_params_in_place_witness :
  dicts (one_dict (series_params cpi_series_id "pc1")) !! 0%nat
    = Some (series_params cpi_series_id "pc1")
  /\ exists d' rest,
       let s' := snd (fred_get w_ok "abcdef" "series/observations" 0%nat
                        (one_dict (series_params cpi_series_id "pc1"))) in
       dicts s' !! 0%nat = Some d'
       /\ trace s'
          = (trace (one_dict (series_params cpi_series_id "pc1"))
             ++ EvHttpGet (BASE_URL ++ "series/observations") d' :: rest)%list
       /\ no_network_call rest
       /\ (forall l, l <> 0%nat ->
           dicts s' !! l
           = dicts (one_dict (series_params cpi_series_id "pc1")) !! l)
       /\ (series_params cpi_series_id "pc1" !! "api_key" = None ->
           d' !! "api_key" = Some "abcdef"
           /\ forall k, k <> "api_key" ->
                d' !! k = series_params cpi_series_id "pc1" !! k)
       /\ (forall v, series_params cpi_series_id "pc1" !! "api_key" = Some v ->
           d' = series_params cpi_series_id "pc1"
           /\ dicts s' = dicts (one_dict (series_params cpi_series_id "pc1"))
           /\ d' !! "api_key" = Some v).
Proof.
  split; [reflexivity|].
  apply (fred_get_params_in_place "" w_ok "abcdef" "series/observations"
           0%nat (one_dict (series_params cpi_series_id "pc1"))
           (series_params cpi_series_id "pc1")).
  reflexivity.
Defined.

(** A status outside 200-299 that is not an error for [raise_for_status]:
    the wrapper returns the 304 answer to its caller. *)
Lemma fred_get_304_returns :
  status_code (obs_resp 304 "Not Modified" []) = 304
  /\ fst (fred_get w_304 "abcdef" "series/observations" 0%nat
            (one_dict (series_params cpi_series_id "pc1")))
     = Returns (obs_resp 304 "Not Modified" []).
Proof. split; vm_compute; reflexivity. Qed.

(** C4, as the code has it.  When the server answers, [fred_get] (either
    copy) sends exactly one request.  For a status from 400 to 599 it
    prints the address, the status and the first 200 characters at most of
    the body, then raises the [HTTPError] of [raise_for_status], which
    carries the response; for any other status, 200-299 included, it returns
    the response. *)
Theorem fred_get_status_contract (mark : string) (w : world)
    (key endpoint : string) (params : loc) (s : state)
    (d : gmap string string) (r : Response) :
  dicts s !! params = Some d ->
  http w (trace s) (BASE_URL ++ endpoint) (with_key key d) = HttpAnswer r ->
  exists s',
    snd (fred_get_marked mark w key endpoint params s) = s'
    /\ (String.length (str_prefix 200 (text r)) <= 200)%nat
    /\ (if error_status r
        then fst (fred_get_marked mark w key endpoint params s)
               = Raises (HTTPError (http_error_msg r) r)
             /\ trace s'
                = (trace s
                   ++ EvHttpGet (BASE_URL ++ endpoint) (with_key key d)
                   :: failure_report mark (BASE_URL ++ endpoint) r)%list
        else fst (fred_get_marked mark w key endpoint params s) = Returns r
             /\ trace s'
                = (trace s
                   ++ [EvHttpGet (BASE_URL ++ endpoint) (with_key key d)])%list).
Proof.
  intros Hd Hr. rewrite (fred_get_run mark w key endpoint params s d Hd).
  cbv zeta. rewrite Hr. eexists. split; [reflexivity|].
  split; [apply str_prefix_length|].
  destruct (error_status r); cbn [fst snd reported after_request trace];
    (split; [reflexivity|]).
  - rewrite <- app_assoc. reflexivity.
  - reflexivity.
Qed.

Lemma fred_get_status_contract_witness :
  dicts (one_dict (series_params cpi_series_id "pc1")) !! 0%nat
    = Some (series_params cpi_series_id "pc1")
  /\ http w_404 [] (BASE_URL ++ "series/observations")
          (with_key "abcdef" (series_params cpi_series_id "pc1"))
     = HttpAnswer (obs_resp 404 "Not Found" [])
  /\ fst (fred_get w_404 "abcdef" "series/observations" 0%nat
            (one_dict (series_params cpi_series_id "pc1")))
     = Raises (HTTPError (http_error_msg (obs_resp 404 "Not Found" []))
                         (obs_resp 404 "Not Found" [])).
Proof.
  split; [reflexivity|]. split; [reflexivity|].
  destruct (fred_get_status_contract "" w_404 "abcdef" "series/observations"
              0%nat (one_dict (series_params cpi_series_id "pc1"))
              (series_params cpi_series_id "pc1")
              (obs_resp 404 "Not Found" []) eq_refl eq_refl)
    as (s' & _ & _ & H).
  exact (proj1 H).
Defined.

(** ** The merge *)

Lemma in_inner_join (a b : Series) (r : merged_row) :
  In r (inner_join a b)
  <-> In (row_date r, cpi_yoy r) a /\ In (row_date r, unemployment r) b.
Proof.
  unfold inner_join. rewrite in_flat_map. split.
  - intros ([d x] & Ha & Hr). apply in_map_iff in Hr as ([d' y] & <- & Hb).
    apply filter_In in Hb as [Hb Hd]. cbn in *. apply Z.eqb_eq in Hd. subst d'.
    auto.
  - intros [Ha Hb]. exists (row_date r, cpi_yoy r). split; [exact Ha|].
    apply in_map_iff. exists (row_date r, unemployment r). split.
    + destruct r; reflexivity.
    + apply filter_In. split; [exact Hb|]. cbn. apply Z.eqb_refl.
Qed.

Lemma in_merge (a b : Series) (r : merged_row) :
  In r (merge a b)
  <-> In (row_date r, cpi_yoy r) a /\ In (row_date r, unemployment r) b
      /\ isna (cpi_yoy r) = false /\ isna (unemployment r) = false.
Proof.
  unfold merge, dropna. rewrite filter_In, in_inner_join, andb_true_iff,
    !negb_true_iff. tauto.
Qed.

Lemma elem_of_valid_dates (t : Series) (d : Z) :
  d ∈ valid_dates t <-> exists v, In (d, v) t /\ isna v = false.
Proof.
  unfold valid_dates. rewrite elem_of_list_to_set, list_elem_of_In, in_map_iff.
  split.
  - intros ([d' v] & <- & H). apply filter_In in H as [H Hv]. exists v.
    cbn in *. apply negb_true_iff in Hv. split; assumption.
  - intros (v & H & Hv). exists (d, v). split; [reflexivity|].
    apply filter_In. split; [exact H|]. cbn. rewrite Hv. reflexivity.
Qed.

(** C2.  The dates of the merged frame are exactly the dates that carry a
    value (not NaN) in the first series and carry a value in the second:
    the intersection of the two sets of valid dates.  No other date
    appears, and none of these is missing. *)
Theorem merge_dates_intersection (a b : Series) :
  merged_dates (merge a b) = valid_dates a ∩ valid_dates b.
Proof.
  apply set_eq. intros d.
  rewrite elem_of_intersection, !elem_of_valid_dates.
  unfold merged_dates. rewrite elem_of_list_to_set, list_elem_of_In, in_map_iff.
  split.
  - intros (r & <- & Hr). apply in_merge in Hr as (Ha & Hb & Hx & Hy).
    split; eexists; split; eassumption.
  - intros [(x & Ha & Hx) (y & Hb & Hy)]. exists (mkRow d x y).
    split; [reflexivity|]. apply in_merge. cbn. repeat split; assumption.
Qed.

(** Which rows the merged frame holds depends on which rows the two
    frames hold, not on the order in which they are listed or visited. *)
Lemma merge_rows_order_independent (a a' b b' : Series) :
  (forall x, In x a <-> In x a') ->
  (forall y, In y b <-> In y b') ->
  forall r, In r (merge a b) <-> In r (merge a' b').
Proof.
  intros Ha Hb r. rewrite !in_merge, Ha, Hb. reflexivity.
Qed.

(** ** The series loader *)

Lemma traverse_length {A B E} (f : A -> E + B) (l : list A) (bs : list B) :
  traverse f l = inr bs -> length bs = length l.
Proof.
  revert bs. induction l as [|a l IH]; intros bs; cbn.
  - intros [= <-]. reflexivity.
  - destruct (f a) as [e|b]; [discriminate|].
    destruct (traverse f l) as [e|bs']; [discriminate|].
    intros [= <-]. cbn. f_equal. apply IH. reflexivity.
Qed.

(** A cell that is not a number stops the loader, whatever the other
    records are. *)
Lemma load_series_unparseable (obs : list observation) (o : observation) :
  In o obs -> py_float (value o) = None ->
  exists e, load_series obs = Raises e.
Proof.
  intros Hin Hbad. unfold load_series.
  destruct obs as [|o1 obs']; [destruct Hin|].
  destruct (traverse to_datetime _) as [e|idx]; [eexists; reflexivity|].
  assert (Hv : exists e, traverse astype_float (map value (o1 :: obs')) = inl e).
  { clear idx. induction (o1 :: obs') as [|x l IH]; [destruct Hin|]. cbn.
    destruct Hin as [-> | Hin].
    - unfold astype_float at 1. rewrite Hbad. eexists; reflexivity.
    - destruct (astype_float (value x)); [eexists; reflexivity|].
      destruct (IH Hin) as [e ->]. eexists; reflexivity. }
  destruct Hv as [e ->]. eexists; reflexivity.
Qed.

(** C5, at the failing input.  On a payload whose second record carries the
    missing-value marker of the API, the loader raises the [ValueError] of
    [astype(float)]: no series is produced, the first record is lost with
    it. *)
Theorem load_series_sentinel_raises :
  py_float "." = None
  /\ load_series with_sentinel
     = Raises (ValueError "could not convert string to float: '.'").
Proof. split; vm_compute; reflexivity. Qed.

(** The loader keeps an unordered payload unordered. *)
Lemma load_series_unordered :
  load_series unordered
  = Returns [(1580515200000000000, FNum (3 # 2));
             (1577836800000000000, FNum (5 # 2))]
  /\ strictly_increasing [1580515200000000000; 1577836800000000000] = false.
Proof. split; vm_compute; reflexivity. Qed.

(** C8, as the code has it.  A series produced by [load_series] has one row
    per record of the payload, in the order of the payload: nothing is
    sorted and no duplicate date is removed.  Its dates are strictly
    increasing exactly when the dates of the payload are. *)
Theorem load_series_keeps_payload_order (obs : list observation)
    (t : Series) :
  load_series obs = Returns t ->
  exists idx,
    traverse to_datetime (map date obs) = inr idx
    /\ map fst t = idx
    /\ length t = length obs
    /\ strictly_increasing (map fst t) = strictly_increasing idx.
Proof.
  unfold load_series. destruct obs as [|o obs']; [discriminate|].
  destruct (traverse to_datetime _) as [e|idx] eqn:Hi; [discriminate|].
  destruct (traverse astype_float _) as [e|vals] eqn:Hv; [discriminate|].
  intros [= <-]. exists idx.
  apply traverse_length in Hi, Hv. rewrite length_map in Hi, Hv.
  assert (Hfst : map fst (zip idx vals) = idx).
  { apply fst_zip. lia. }
  split; [reflexivity|]. split; [exact Hfst|]. split.
  - rewrite length_zip_with. lia.
  - rewrite Hfst. reflexivity.
Qed.

Lemma load_series_keeps_payload_order_witness :
  load_series unordered
  = Returns [(1580515200000000000, FNum (3 # 2));
             (1577836800000000000, FNum (5 # 2))]
  /\ exists idx,
       traverse to_datetime (map date unordered) = inr idx
       /\ map fst [(1580515200000000000, FNum (3 # 2));
                   (1577836800000000000, FNum (5 # 2))] = idx
       /\ length [(1580515200000000000, FNum (3 # 2));
                  (1577836800000000000, FNum (5 # 2))] = length unordered
       /\ strictly_increasing
            (map fst [(1580515200000000000, FNum (3 # 2));
                      (1577836800000000000, FNum (5 # 2))])
          = strictly_increasing idx.
Proof.
  split; [vm_compute; reflexivity|].
  apply (load_series_keeps_payload_order unordered). vm_compute; reflexivity.
Defined.

(** ** Sums of rationals *)

Section Sums.
Context {A : Type}.
Implicit Types (f g : A -> Q) (l : list A) (c : Q).








End Sums.




(** ** The regression *)

Section Fit.
Variables xs ys : list Q.





End Fit.






(** ** Least squares *)













(** ** More on the credential lookup *)

(** X1.  [_get_fred_api_key] returns a key in one case only: the
    connection, the query and the commit on leaving the [with] block all
    succeed and the first column of the first row is that non-empty text.
    It has then made exactly these four database calls and touched
    nothing else. *)
Theorem lookup_returns_iff (w : world) (s : state) (key : string) :
  ((exists s', _get_fred_api_key w s = (Returns key, s'))
   <-> (db_connect w conn_str = None
        /\ db_execute w key_query = None
        /\ db_fetchone w = inr (Some (SqlText key))
        /\ key <> ""
        /\ db_commit w = None))
  /\ (forall s',
        _get_fred_api_key w s = (Returns key, s') ->
        s' = mkState (dicts s) (trace s ++ lookup_events)).
Proof.
  assert (Hfwd : forall s',
             _get_fred_api_key w s = (Returns key, s') ->
             (db_connect w conn_str = None
              /\ db_execute w key_query = None
              /\ db_fetchone w = inr (Some (SqlText key))
              /\ key <> ""
              /\ db_commit w = None)
             /\ s' = mkState (dicts s) (trace s ++ lookup_events)).
  { intros s'. run_lookup.
    destruct (db_connect w conn_str) as [m1|]; simpl;
      [destruct (db_rollback w); discriminate|].
    destruct (db_execute w key_query) as [m2|]; simpl;
      [destruct (db_rollback w); discriminate|].
    destruct (db_fetchone w) as [m3|row]; simpl;
      [destruct (db_rollback w); discriminate|].
    destruct (no_key row) eqn:Hk; simpl;
      [destruct (db_rollback w); discriminate|].
    destruct (db_commit w) as [m5|]; simpl; [discriminate|].
    intros [= <- <-]. destruct (no_key_false_row0 row Hk) as [Hr Hne].
    repeat split; try reflexivity; try assumption.
    - f_equal. exact Hr.
    - rewrite <- !app_assoc. reflexivity. }
  split; [split|].
  - intros [s' H]. apply (Hfwd s' H).
  - intros (Hc & He & Hf & Hne & Hm). eexists. run_lookup.
    rewrite Hc, He, Hf. pose proof (no_key_text key Hne) as Hk.
    simpl in *. rewrite Hk, Hm. reflexivity.
  - intros s' H. apply (Hfwd s' H).
Qed.

(** X2.  When the query goes through but the table gives no row, a [NULL]
    or an empty text, the caller does not see the error raised inside the
    [try]: that [RuntimeError] is caught by the function's own handler and
    comes out as the cause of a second [RuntimeError], whose message quotes
    it.  The transaction is rolled back and never committed. *)
Theorem lookup_missing_key (w : world) (s : state) (row : option sqlval) :
  db_connect w conn_str = None ->
  db_execute w key_query = None ->
  db_fetchone w = inr row ->
  no_key row = true ->
  db_rollback w = None ->
  _get_fred_api_key w s
  = (Raises (RuntimeError
               ("Could not retrieve the FRED API key from the database."
                ++ nl ++ "Original exception: " ++ no_key_msg)
               (Some (RuntimeError no_key_msg None))),
     mkState (dicts s)
             (trace s ++ [EvDbConnect conn_str; EvDbExecute key_query;
                          EvDbFetchone; EvDbRollback])).
Proof.
  intros Hc He Hf Hk Hr. run_lookup. rewrite Hc, He, Hf. simpl.
  rewrite Hk, Hr. simpl. rewrite <- !app_assoc. reflexivity.
Qed.

Lemma lookup_missing_key_witness :
  _get_fred_api_key w_no_row initial
  = (Raises (RuntimeError
               ("Could not retrieve the FRED API key from the database."
                ++ nl ++ "Original exception: " ++ no_key_msg)
               (Some (RuntimeError no_key_msg None))),
     mkState (dicts initial)
             (trace initial ++ [EvDbConnect conn_str; EvDbExecute key_query;
                                EvDbFetchone; EvDbRollback])).
Proof.
  exact (lookup_missing_key w_no_row initial None
           eq_refl eq_refl eq_refl eq_refl eq_refl).
Defined.

(** X3.  When the connection is refused nothing else is attempted: no
    query, no commit, no rollback.  The driver's message is kept, quoted in
    the message of the [RuntimeError] and carried as its cause. *)
Theorem lookup_connection_refused (w : world) (s : state) (msg : string) :
  db_connect w conn_str = Some msg ->
  _get_fred_api_key w s
  = (Raises (RuntimeError
               ("Could not retrieve the FRED API key from the database."
                ++ nl ++ "Original exception: " ++ msg)
               (Some (PyodbcError msg))),
     mkState (dicts s) (trace s ++ [EvDbConnect conn_str])).
Proof. intros Hc. run_lookup. rewrite Hc. reflexivity. Qed.

Lemma lookup_connection_refused_witness :
  _get_fred_api_key w_refused initial
  = (Raises (RuntimeError
               ("Could not retrieve the FRED API key from the database."
                ++ nl ++ "Original exception: " ++ "08001")
               (Some (PyodbcError "08001"))),
     mkState (dicts initial) (trace initial ++ [EvDbConnect conn_str])).
Proof. exact (lookup_connection_refused w_refused initial "08001" eq_refl). Defined.

Lemma import_without_driver (w : world) (s : state) :
  pyodbc_installed w = false ->
  import_fred_key w s
  = (Raises (RuntimeError import_hint
               (Some (ImportError "No module named 'pyodbc'"))), s).
Proof.
  intros Hi.
  unfold import_fred_key, import_fred_key_module, try_except, bind, raise.
  rewrite Hi. reflexivity.
Qed.

(** X4.  On a machine without the database driver the import of
    [fred_key] fails with an [ImportError]; both scripts turn it into a
    [RuntimeError] that tells how to provide the key, keep the
    [ImportError] as its cause, and stop there: no database call, no
    request, nothing printed. *)
Theorem scripts_without_driver (w : world) (s : state) :
  pyodbc_installed w = false ->
  regression_script w s
  = (Raises (RuntimeError import_hint
               (Some (ImportError "No module named 'pyodbc'"))), s)
  /\ phillips_script w s
     = (Raises (RuntimeError import_hint
                  (Some (ImportError "No module named 'pyodbc'"))), s).
Proof.
  intros Hi. pose proof (import_without_driver w s Hi) as H.
  split; [unfold regression_script | unfold phillips_script];
    apply bind_raises; exact H.
Qed.

Lemma scripts_without_driver_witness :
  regression_script w_no_driver initial
  = (Raises (RuntimeError import_hint
               (Some (ImportError "No module named 'pyodbc'"))), initial)
  /\ phillips_script w_no_driver initial
     = (Raises (RuntimeError import_hint
                  (Some (ImportError "No module named 'pyodbc'"))), initial).
Proof. exact (scripts_without_driver w_no_driver initial eq_refl). Defined.

(** ** More on the request wrapper *)

(** The state [fred_get] leaves, whatever the server does: the caller's
    dictionary with the credential in, one request, then prints only. *)
Lemma fred_get_after (mark : string) (w : world) (key endpoint : string)
    (params : loc) (s : state) (d : gmap string string) :
  dicts s !! params = Some d ->
  exists rest,
    snd (fred_get_marked mark w key endpoint params s)
    = mkState (<[params := with_key key d]> (dicts s))
              (trace s
               ++ EvHttpGet (BASE_URL ++ endpoint) (with_key key d) :: rest)
    /\ no_network_call rest.
Proof.
  intros Hd. rewrite (fred_get_run mark w key endpoint params s d Hd).
  cbv zeta.
  destruct (http w (trace s) (BASE_URL ++ endpoint) (with_key key d))
    as [r|msg]; [destruct (error_status r)|].
  - exists (failure_report mark (BASE_URL ++ endpoint) r).
    split; [|apply failure_report_prints].
    unfold reported, after_request. cbn [snd dicts trace].
    rewrite <- app_assoc. reflexivity.
  - exists []. split; [reflexivity | constructor].
  - exists []. split; [reflexivity | constructor].
Qed.

(** X5.  When [requests.get] itself fails (no answer at all), the wrapper
    reports nothing: the exception leaves unchanged and no line is
    printed.  The request was attempted once, and the caller's dictionary
    already holds the credential. *)
Theorem fred_get_transport_failure (mark : string) (w : world)
    (key endpoint : string) (params : loc) (s : state)
    (d : gmap string string) (msg : string) :
  dicts s !! params = Some d ->
  http w (trace s) (BASE_URL ++ endpoint) (with_key key d) = HttpFailure msg ->
  fred_get_marked mark w key endpoint params s
  = (Raises (RequestException msg),
     mkState (<[params := with_key key d]> (dicts s))
             (trace s ++ [EvHttpGet (BASE_URL ++ endpoint) (with_key key d)])).
Proof.
  intros Hd Hf. rewrite (fred_get_run mark w key endpoint params s d Hd).
  cbv zeta. rewrite Hf. reflexivity.
Qed.

Lemma fred_get_transport_failure_witness :
  fred_get w_offline "abcdef" "series/observations" 0%nat
           (one_dict (series_params cpi_series_id "pc1"))
  = (Raises (RequestException "Connection refused"),
     mkState (<[0%nat := with_key "abcdef" (series_params cpi_series_id "pc1")]>
                (dicts (one_dict (series_params cpi_series_id "pc1"))))
             (trace (one_dict (series_params cpi_series_id "pc1"))
              ++ [EvHttpGet (BASE_URL ++ "series/observations")
                    (with_key "abcdef" (series_params cpi_series_id "pc1"))])).
Proof.
  exact (fred_get_transport_failure "" w_offline "abcdef" "series/observations"
           0%nat (one_dict (series_params cpi_series_id "pc1"))
           (series_params cpi_series_id "pc1") "Connection refused"
           eq_refl eq_refl).
Defined.

(** X6.  The credential a dictionary received stays in it.  If the same
    dictionary is passed to [fred_get] a second time, by either script and
    with whatever credential the module then holds, the second request
    carries the first credential, and the store is left as the first call
    left it. *)
Theorem fred_get_key_sticks (mark1 mark2 : string) (w1 w2 : world)
    (k1 k2 ep1 ep2 : string) (params : loc) (s : state)
    (d : gmap string string) :
  dicts s !! params = Some d ->
  d !! "api_key" = None ->
  let s1 := snd (fred_get_marked mark1 w1 k1 ep1 params s) in
  let s2 := snd (fred_get_marked mark2 w2 k2 ep2 params s1) in
  dicts s2 = dicts s1
  /\ exists rest,
       trace s2
       = (trace s1
          ++ EvHttpGet (BASE_URL ++ ep2) (<["api_key" := k1]> d) :: rest)%list
       /\ no_network_call rest.
Proof.
  intros Hd Hk s1 s2.
  destruct (fred_get_after mark1 w1 k1 ep1 params s d Hd) as (r1 & H1 & _).
  fold s1 in H1.
  assert (Hw : with_key k1 d = <["api_key" := k1]> d).
  { unfold with_key. rewrite Hk. reflexivity. }
  rewrite Hw in H1.
  assert (Hd1 : dicts s1 !! params = Some (<["api_key" := k1]> d)).
  { rewrite H1. cbn [dicts]. apply lookup_insert_eq. }
  destruct (fred_get_after mark2 w2 k2 ep2 params s1 _ Hd1) as (r2 & H2 & Hn).
  fold s2 in H2.
  assert (Hw2 : with_key k2 (<["api_key" := k1]> d) = <["api_key" := k1]> d).
  { unfold with_key. rewrite lookup_insert_eq. reflexivity. }
  rewrite Hw2 in H2. rewrite H2. cbn [dicts trace]. split.
  - apply insert_id. exact Hd1.
  - exists r2. split; [reflexivity | exact Hn].
Qed.

Lemma fred_get_key_sticks_witness :
  let s1 := snd (fred_get w_ok "first" "series/observations" 0%nat
                   (one_dict (series_params cpi_series_id "pc1"))) in
  let s2 := snd (fred_get_phillips w_404 "second" "releases" 0%nat s1) in
  dicts s2 = dicts s1
  /\ exists rest,
       trace s2
       = (trace s1
          ++ EvHttpGet (BASE_URL ++ "releases")
               (<["api_key" := "first"]> (series_params cpi_series_id "pc1"))
          :: rest)%list
       /\ no_network_call rest.
Proof.
  exact (fred_get_key_sticks "" "❌" w_ok w_404 "first" "second"
           "series/observations" "releases" 0%nat
           (one_dict (series_params cpi_series_id "pc1"))
           (series_params cpi_series_id "pc1") eq_refl eq_refl).
Defined.

(** ** More on the series loader *)

Section Traverse.
Context {A B E : Type} (f : A -> E + B).

Lemma traverse_inr_Forall2 (l : list A) (bs : list B) :
  traverse f l = inr bs <-> Forall2 (fun a b => f a = inr b) l bs.
Proof.
  revert bs. induction l as [|a l IH]; intros bs; cbn.
  - split.
    + intros [= <-]. constructor.
    + intros H. inversion H. reflexivity.
  - split.
    + destruct (f a) as [e|b] eqn:Ha; [discriminate|].
      destruct (traverse f l) as [e|bs'] eqn:Hl; [discriminate|].
      intros [= <-]. constructor; [exact Ha | apply IH; reflexivity].
    + intros H. inversion H as [|a' b l' bs' Ha Hl]; subst.
      rewrite Ha. apply IH in Hl. rewrite Hl. reflexivity.
Qed.

(** A failing traversal stops at the first element that fails. *)
Lemma traverse_inl_first (l : list A) (e : E) :
  traverse f l = inl e ->
  exists a, In a l /\ f a = inl e.
Proof.
  induction l as [|a l IH]; cbn; [discriminate|].
  destruct (f a) as [e'|b] eqn:Ha.
  - intros [= <-]. exists a. split; [left; reflexivity | exact Ha].
  - destruct (traverse f l) as [e'|bs]; [|discriminate].
    intros [= <-]. destruct (IH eq_refl) as (a' & Hin & Ha').
    exists a'. split; [right; exact Hin | exact Ha'].
Qed.

Lemma traverse_inr_Forall (l : list A) :
  (exists bs, traverse f l = inr bs) <-> Forall (fun a => exists b, f a = inr b) l.
Proof.
  induction l as [|a l IH]; cbn.
  - split; [constructor | intros _; eexists; reflexivity].
  - split.
    + intros [bs H]. destruct (f a) as [e|b] eqn:Ha; [discriminate|].
      destruct (traverse f l) as [e|bs'] eqn:Hl; [discriminate|].
      constructor; [exists b; exact Ha | apply IH; eexists; reflexivity].
    + intros H. inversion H as [|a' l' [b Ha] Hl]; subst.
      apply IH in Hl as [bs Hl]. rewrite Ha, Hl. eexists; reflexivity.
Qed.
End Traverse.

Lemma astype_float_inr (s : string) (v : fval) :
  astype_float s = inr v <-> py_float s = Some v.
Proof.
  unfold astype_float. destruct (py_float s); split; congruence.
Qed.

Lemma api_record_dated (obs : list observation) :
  forallb api_record obs = true ->
  exists idx, traverse to_datetime (map date obs) = inr idx.
Proof.
  intros H. apply traverse_inr_Forall. rewrite List.Forall_map.
  apply List.Forall_forall. intros o Ho.
  rewrite forallb_forall in H. specialize (H o Ho). unfold api_record in H.
  destruct (to_datetime (date o)) as [msg|ts]; [discriminate|].
  exists ts. reflexivity.
Qed.

(** X7.  On a payload of records as the API writes them, dates in the form
    [YYYY-MM-DD] and values in ASCII, the loader produces a series exactly
    when the payload has at least one record and every value is a text
    that [float] reads.  One value that is not a number anywhere, or an
    empty [observations] array, and there is no series at all. *)
Theorem load_series_succeeds_iff (obs : list observation) :
  forallb api_record obs = true ->
  ((exists t, load_series obs = Returns t)
   <-> obs <> []
       /\ Forall (fun o => exists v, py_float (value o) = Some v) obs).
Proof.
  intros Hapi. destruct (api_record_dated obs Hapi) as [idx Hidx].
  unfold load_series. rewrite Hidx. split.
  - intros [t H]. destruct obs as [|o obs']; [discriminate|].
    split; [discriminate|].
    destruct (traverse astype_float _) as [e|vals] eqn:Hv; [discriminate|].
    assert (Hf : Forall (fun s => exists v, astype_float s = inr v)
                        (map value (o :: obs')))
      by (apply traverse_inr_Forall; eexists; exact Hv).
    rewrite List.Forall_map in Hf.
    rewrite List.Forall_forall in *. intros x Hx.
    destruct (Hf x Hx) as [v Hxv]. exists v. apply astype_float_inr, Hxv.
  - intros [Hne Hall]. destruct obs as [|o obs']; [contradiction|].
    assert (Hf : exists vals, traverse astype_float (map value (o :: obs'))
                              = inr vals).
    { apply traverse_inr_Forall. rewrite List.Forall_map.
      rewrite List.Forall_forall in *. intros x Hx.
      destruct (Hall x Hx) as [v Hv]. exists v.
      apply astype_float_inr, Hv. }
    destruct Hf as [vals ->]. eexists; reflexivity.
Qed.

Lemma load_series_succeeds_iff_witness :
  (exists t, load_series three_months = Returns t)
  /\ ~ (exists t, load_series with_sentinel = Returns t).
Proof.
  split.
  - apply (proj2 (load_series_succeeds_iff three_months eq_refl)).
    split; [discriminate|].
    repeat constructor; eexists; vm_compute; reflexivity.
  - intros H.
    apply (proj1 (load_series_succeeds_iff with_sentinel eq_refl)) in H
      as [_ HF].
    inversion HF as [|? ? _ HF']; subst.
    inversion HF' as [|? ? [v Hv] _]; subst.
    vm_compute in Hv. discriminate Hv.
Defined.

(** X8.  In a series the loader returns, the row at each position is the
    record at that position, read: its date is what [to_datetime] makes of
    the record's date and its value what [float] makes of the record's
    value.  No record is dropped, added, moved or merged with another. *)
Theorem load_series_rows (obs : list observation) (t : Series) :
  load_series obs = Returns t ->
  Forall2 (fun o row => to_datetime (date o) = inr (fst row)
                        /\ py_float (value o) = Some (snd row)) obs t.
Proof.
  unfold load_series. destruct obs as [|o obs']; [discriminate|].
  destruct (traverse to_datetime _) as [e|idx] eqn:Hi; [discriminate|].
  destruct (traverse astype_float _) as [e|vals] eqn:Hv; [discriminate|].
  intros [= <-]. apply traverse_inr_Forall2 in Hi, Hv.
  revert Hi Hv. generalize (o :: obs'). clear o obs'. intros l.
  revert idx vals. induction l as [|x l IH]; intros idx vals Hi Hv;
    inversion Hi as [|? ts ? idx' Hts Hi']; subst;
    inversion Hv as [|? v ? vals' Hval Hv']; subst; cbn.
  - constructor.
  - constructor.
    + split; [exact Hts | apply astype_float_inr, Hval].
    + apply IH; assumption.
Qed.

Lemma load_series_rows_witness :
  Forall2 (fun o row => to_datetime (date o) = inr (fst row)
                        /\ py_float (value o) = Some (snd row))
          unordered
          [(1580515200000000000, FNum (3 # 2));
           (1577836800000000000, FNum (5 # 2))].
Proof.
  apply (load_series_rows unordered). vm_compute. reflexivity.
Defined.

(** X9.  On a payload of records as the API writes them, the loader
    fails in two ways only.  An empty [observations] array gives the
    [KeyError] of selecting the date column of a frame without columns.
    Otherwise the error is a [ValueError], and the payload holds a record
    whose value is not a number. *)
Theorem load_series_error_kinds (obs : list observation) (e : exn) :
  forallb api_record obs = true ->
  load_series obs = Raises e ->
  (obs = [] /\ e = KeyError "date")
  \/ (exists o msg,
        In o obs /\ py_float (value o) = None /\ e = ValueError msg).
Proof.
  intros Hapi. destruct (api_record_dated obs Hapi) as [idx Hidx].
  unfold load_series. rewrite Hidx. destruct obs as [|o obs'].
  { intros [= <-]. left. split; reflexivity. }
  destruct (traverse astype_float _) as [msg|vals] eqn:Hv; [|discriminate].
  intros [= <-]. right.
  apply traverse_inl_first in Hv as (s & Hin & Hs).
  apply in_map_iff in Hin as (x & <- & Hx). exists x, msg.
  unfold astype_float in Hs. destruct (py_float (value x)); [discriminate|].
  auto.
Qed.

Lemma load_series_error_kinds_witness :
  exists e,
    load_series with_sentinel = Raises e
    /\ ((with_sentinel = [] /\ e = KeyError "date")
        \/ (exists o msg,
              In o with_sentinel /\ py_float (value o) = None
              /\ e = ValueError msg)).
Proof.
  eexists. split; [vm_compute; reflexivity|].
  apply (load_series_error_kinds with_sentinel _ eq_refl).
  vm_compute. reflexivity.
Defined.

(** ** More on the merge *)

(** X10.  A row is in the merged frame exactly when its date and first
    value form a row of the first series, its date and second value form a
    row of the second series, and neither value is NaN.  The merge invents
    no value and pairs values of one date only. *)
Theorem merge_rows_exact (a b : Series) (d : Z) (x y : fval) :
  In (mkRow d x y) (merge a b)
  <-> In (d, x) a /\ In (d, y) b /\ isna x = false /\ isna y = false.
Proof. rewrite in_merge. reflexivity. Qed.

Lemma merge_cons (r : Z * fval) (a b : Series) :
  merge (r :: a) b
  = (dropna (map (fun r' => mkRow (fst r) (snd r) (snd r'))
                 (List.filter (fun r' => fst r' =? fst r) b))
     ++ merge a b)%list.
Proof. unfold merge, dropna. cbn [inner_join flat_map]. apply List.filter_app. Qed.

(** With unique dates on the right, a row on the left finds one match at
    most. *)
Lemma matches_at_most_one (d : Z) (b : Series) :
  NoDup (map fst b) ->
  (length (List.filter (fun r' => (fst r' =? d)%Z) b) <= 1)%nat.
Proof.
  induction b as [|r b IH]; intros Hnd; cbn; [lia|].
  apply NoDup_cons in Hnd as [Hr Hnd]. destruct (fst r =? d) eqn:Hd.
  - apply Z.eqb_eq in Hd. subst d.
    assert (Hnone : List.filter (fun r' => fst r' =? fst r) b = []).
    { destruct (List.filter _ b) as [|r' l] eqn:Hf; [reflexivity|].
      exfalso. apply Hr. apply list_elem_of_In, in_map_iff. exists r'.
      assert (Hin : In r' (List.filter (fun r' => fst r' =? fst r) b))
        by (rewrite Hf; left; reflexivity).
      apply filter_In in Hin as [Hin Heq]. apply Z.eqb_eq in Heq. auto. }
    rewrite Hnone. cbn. lia.
  - apply IH, Hnd.
Qed.

Lemma merge_dates_sublist_of_left (a b : Series) :
  NoDup (map fst b) ->
  map row_date (merge a b) `sublist_of` map fst a.
Proof.
  intros Hnd. induction a as [|r a IH]; [constructor|].
  rewrite merge_cons, map_app. cbn [map].
  pose proof (matches_at_most_one (fst r) b Hnd) as Hle.
  destruct (List.filter (fun r' => fst r' =? fst r) b) as [|m [|m' l]];
    cbn in Hle; try lia; cbn [map dropna List.filter].
  - cbn [app]. apply sublist_cons, IH.
  - unfold dropna. cbn [map List.filter cpi_yoy unemployment].
    destruct (negb (isna (snd r)) && negb (isna (snd m))); cbn [map app row_date].
    + apply sublist_skip, IH.
    + apply sublist_cons, IH.
Qed.

Lemma strictly_increasing_cons (a : Z) (l : list Z) :
  strictly_increasing (a :: l) = true
  <-> Forall (fun b => a < b) l /\ strictly_increasing l = true.
Proof.
  revert a. induction l as [|b l IH]; intros a.
  - cbn. split; [intros _; split; [constructor | reflexivity] | reflexivity].
  - change (strictly_increasing (a :: b :: l))
      with ((a <? b) && strictly_increasing (b :: l)).
    rewrite andb_true_iff, Z.ltb_lt. split.
    + intros [Hab Hs]. split; [|exact Hs]. constructor; [exact Hab|].
      apply IH in Hs as [Hb _]. eapply List.Forall_impl; [|exact Hb].
      intros c Hc. cbv beta in *. lia.
    + intros [Hall Hs]. split; [|exact Hs]. inversion Hall; assumption.
Qed.

Lemma strictly_increasing_sublist (l1 l2 : list Z) :
  l1 `sublist_of` l2 ->
  strictly_increasing l2 = true -> strictly_increasing l1 = true.
Proof.
  induction 1 as [|x l1 l2 Hsub IH|x l1 l2 Hsub IH]; intros Hs.
  - reflexivity.
  - apply strictly_increasing_cons in Hs as [Hall Hs].
    apply strictly_increasing_cons. split; [|apply IH, Hs].
    rewrite Forall_forall in *. intros y Hy. apply Hall.
    eapply elem_of_sublist; eassumption.
  - apply strictly_increasing_cons in Hs as [_ Hs]. apply IH, Hs.
Qed.

(** X11.  When no date occurs twice in the second series, the dates of the
    merged frame are the dates of the first series in their order with
    some left out, each kept date once for each time the first series has
    it.  In particular, if no date occurs twice in the first series either,
    none occurs twice in the merged frame: it maps each date to one pair of
    values. *)
Theorem merge_unique_dates (a b : Series) :
  NoDup (map fst b) ->
  map row_date (merge a b) `sublist_of` map fst a
  /\ (NoDup (map fst a) -> NoDup (map row_date (merge a b))).
Proof.
  intros Hnd. pose proof (merge_dates_sublist_of_left a b Hnd) as Hsub.
  split; [exact Hsub|]. intros Ha. eapply sublist_NoDup; eassumption.
Qed.

Lemma merge_unique_dates_witness :
  map row_date (merge [(0, FNum 1); (ns_per_day, FNaN)]
                      [(0, FNum 2); (ns_per_day, FNum 3)])
    `sublist_of` map fst [(0, FNum 1); (ns_per_day, FNaN)]
  /\ (NoDup (map fst [(0, FNum 1); (ns_per_day, FNaN)]) ->
      NoDup (map row_date (merge [(0, FNum 1); (ns_per_day, FNaN)]
                                 [(0, FNum 2); (ns_per_day, FNum 3)]))).
Proof.
  apply (merge_unique_dates [(0, FNum 1); (ns_per_day, FNaN)]
           [(0, FNum 2); (ns_per_day, FNum 3)]).
  apply NoDup_cons. split; [|apply NoDup_singleton].
  intros H. apply list_elem_of_In in H. destruct H as [H | []].
  vm_compute in H. discriminate.
Defined.

(** X12.  The merge keeps date order: if the dates of the first series are
    strictly increasing and no date occurs twice in the second, the dates
    of the merged frame are strictly increasing, whatever the order of the
    second series. *)
Theorem merge_keeps_date_order (a b : Series) :
  strictly_increasing (map fst a) = true ->
  NoDup (map fst b) ->
  strictly_increasing (map row_date (merge a b)) = true.
Proof.
  intros Ha Hb. eapply strictly_increasing_sublist; [|exact Ha].
  apply merge_dates_sublist_of_left, Hb.
Qed.

Lemma merge_keeps_date_order_witness :
  strictly_increasing
    (map row_date (merge [(0, FNum 1); (ns_per_day, FNum 4)]
                         [(ns_per_day, FNum 3); (0, FNum 2)])) = true.
Proof.
  apply (merge_keeps_date_order [(0, FNum 1); (ns_per_day, FNum 4)]
           [(ns_per_day, FNum 3); (0, FNum 2)]); [reflexivity|].
  apply NoDup_cons. split; [|apply NoDup_singleton].
  intros H. apply list_elem_of_In in H. destruct H as [H | []].
  vm_compute in H. discriminate.
Defined.

Lemma merged_count_app (d : Z) (m1 m2 : list merged_row) :
  merged_count d (m1 ++ m2) = (merged_count d m1 + merged_count d m2)%nat.
Proof. unfold merged_count. rewrite List.filter_app, length_app. reflexivity. Qed.

(** The rows one row of the first series contributes on date [d]. *)
Lemma merged_count_matches (d : Z) (r : Z * fval) (b : Series) :
  merged_count d
    (dropna (map (fun r' => mkRow (fst r) (snd r) (snd r'))
                 (List.filter (fun r' => fst r' =? fst r) b)))
  = if (fst r =? d) && negb (isna (snd r)) then valid_count d b else 0%nat.
Proof.
  unfold merged_count, valid_count, dropna.
  induction b as [|r' b IH]; cbn [List.filter map length].
  - destruct ((fst r =? d) && negb (isna (snd r))); reflexivity.
  - destruct (fst r' =? fst r) eqn:Hk; cbn [map List.filter].
    + apply Z.eqb_eq in Hk. rewrite Hk.
      cbn [cpi_yoy unemployment row_date].
      destruct (fst r =? d) eqn:Hd, (negb (isna (snd r))) eqn:Hx,
               (negb (isna (snd r'))) eqn:Hy;
        cbn [andb negb List.filter length row_date] in *;
        rewrite ?Hd; cbn [length]; rewrite IH; reflexivity.
    + rewrite IH.
      destruct (fst r =? d) eqn:Hd; cbn [andb]; [|reflexivity].
      apply Z.eqb_eq in Hd. subst d. rewrite Hk. cbn [andb].
      reflexivity.
Qed.

(** X13.  Dates that repeat multiply.  On every date, the merged frame has
    as many rows as the product of the number of rows with a value on that
    date in the first series and in the second: one row when the date is
    unique on both sides, none when a side has no value there, and m times
    n rows when the two sides repeat it m and n times. *)
Theorem merge_rows_per_date (a b : Series) (d : Z) :
  merged_count d (merge a b) = (valid_count d a * valid_count d b)%nat.
Proof.
  induction a as [|r a IH]; [reflexivity|].
  rewrite merge_cons, merged_count_app, merged_count_matches, IH.
  assert (Hcons : valid_count d (r :: a)
                  = ((if (fst r =? d)%Z && negb (isna (snd r))
                      then 1 else 0) + valid_count d a)%nat).
  { unfold valid_count. cbn [List.filter].
    destruct ((fst r =? d) && negb (isna (snd r))); reflexivity. }
  rewrite Hcons. destruct ((fst r =? d) && negb (isna (snd r))); lia.
Qed.

(** ** More on the regression *)


(** X15.  When the two series share no date on which both carry a value,
    the merged frame is empty and the regression step stops the script
    with the library's error for an input without samples. *)
Theorem no_common_date_stops_fit (w : world) (a b : Series) :
  valid_dates a ∩ valid_dates b = ∅ ->
  merge a b = []
  /\ fit w (merge a b)
     = Raises (ValueError "Found array with 0 sample(s) (shape=(0, 1)) while a minimum of 1 is required by LinearRegression.").
Proof.
  intros Hdis.
  assert (Hnil : merge a b = []).
  { destruct (merge a b) as [|r l] eqn:Hm; [reflexivity|]. exfalso.
    assert (Hr : In r (merge a b)) by (rewrite Hm; left; reflexivity).
    apply in_merge in Hr as (Ha & Hb & Hx & Hy).
    assert (Hin : row_date r ∈ valid_dates a ∩ valid_dates b).
    { apply elem_of_intersection. split; apply elem_of_valid_dates;
        eexists; split; eassumption. }
    rewrite Hdis in Hin. apply not_elem_of_empty in Hin. exact Hin. }
  rewrite Hnil. split; reflexivity.
Qed.

Lemma no_common_date_stops_fit_witness :
  merge [(0, FNum 1); (ns_per_day, FNaN)] [(ns_per_day, FNum 3)] = []
  /\ fit w_ok (merge [(0, FNum 1); (ns_per_day, FNaN)] [(ns_per_day, FNum 3)])
     = Raises (ValueError "Found array with 0 sample(s) (shape=(0, 1)) while a minimum of 1 is required by LinearRegression.").
Proof.
  apply (no_common_date_stops_fit w_ok [(0, FNum 1); (ns_per_day, FNaN)]
           [(ns_per_day, FNum 3)]).
  vm_compute. reflexivity.
Defined.

(** ** The scripts as a whole *)

Lemma series_params_no_key (sid units : string) :
  series_params sid units !! "api_key" = None.
Proof. reflexivity. Qed.

Lemma http_gets_app (t1 t2 : list event) :
  http_gets (t1 ++ t2) = (http_gets t1 ++ http_gets t2)%list.
Proof. unfold http_gets. apply flat_map_app. Qed.

Lemma http_gets_no_network (t : list event) :
  no_network_call t -> http_gets t = [].
Proof.
  induction 1 as [|ev t Hev _ IH]; [reflexivity|].
  unfold http_gets in *. cbn [flat_map]. rewrite IH.
  destruct ev; try reflexivity. discriminate.
Qed.

Lemma pull_run (mark : string) (w : world) (key sid units title : string)
    (s : state) :
  pull (fred_get_marked mark w key) sid units title s =
    let l := fresh (dom (dicts s)) in
    let d' := sent_params key sid units in
    let s1 := mkState (<[l := d']> (dicts s))
                      (trace s ++ [EvHttpGet observations_url d']) in
    match http w (trace s) observations_url d' with
    | HttpFailure msg => (Raises (RequestException msg), s1)
    | HttpAnswer r =>
        if error_status r
        then (Raises (HTTPError (http_error_msg r) r),
              reported mark observations_url r s1)
        else
          match json_body r with
          | NotJson msg => (Raises (ValueError msg), s1)
          | JsonOther msg => (Raises (TypeError msg), s1)
          | JsonObject p =>
              match observations p with
              | None => (Raises (KeyError "observations"), s1)
              | Some obs =>
                  match load_series obs with
                  | Raises e => (Raises e, s1)
                  | Returns df =>
                      (Returns df,
                       mkState (dicts s1)
                               (trace s1 ++ [EvPrint title;
                                             EvPrintSeries (firstn 5 df)]))
                  end
              end
          end
    end.
Proof.
  unfold pull. unfold bind at 1. unfold new_dict at 1.
  set (l := fresh (dom (dicts s))).
  set (s0 := mkState (<[l := series_params sid units]> (dicts s)) (trace s)).
  assert (Hd : dicts s0 !! l = Some (series_params sid units))
    by apply lookup_insert_eq.
  unfold bind at 1.
  rewrite (fred_get_run mark w key "series/observations" l s0 _ Hd).
  cbv zeta. fold observations_url.
  assert (Hk : with_key key (series_params sid units) = sent_params key sid units)
    by reflexivity.
  rewrite Hk. unfold after_request. rewrite Hk. unfold s0. cbn [dicts trace].
  rewrite insert_insert_eq.
  destruct (http w (trace s) observations_url (sent_params key sid units))
    as [r|msg]; [|reflexivity].
  destruct (error_status r); [reflexivity|].
  unfold json_observations.
  destruct (json_body r) as [msg|p|msg]; [reflexivity| |reflexivity].
  destruct (observations p) as [obs|]; [|reflexivity].
  unfold bind, ret, lift, print, emit.
  destruct (load_series obs) as [df|e]; [|reflexivity].
  cbn [dicts trace]. rewrite <- !app_assoc. reflexivity.
Qed.

Lemma pull_gets (mark : string) (w : world) (key sid units title : string)
    (s : state) :
  http_gets (trace (snd (pull (fred_get_marked mark w key) sid units title s)))
  = (http_gets (trace s) ++ [(observations_url, sent_params key sid units)])%list.
Proof.
  rewrite pull_run. cbv zeta.
  destruct (http w (trace s) observations_url (sent_params key sid units))
    as [r|msg]; [|cbn [snd trace]; rewrite http_gets_app; reflexivity].
  destruct (error_status r).
  { unfold reported. cbn [snd trace]. rewrite !http_gets_app.
    rewrite (http_gets_no_network _ (failure_report_prints _ _ _)).
    rewrite app_nil_r. reflexivity. }
  destruct (json_body r) as [msg|p|msg];
    [cbn [snd trace]; rewrite http_gets_app; reflexivity|
    |cbn [snd trace]; rewrite http_gets_app; reflexivity].
  destruct (observations p) as [obs|];
    [|cbn [snd trace]; rewrite http_gets_app; reflexivity].
  destruct (load_series obs) as [df|e];
    cbn [snd trace]; rewrite !http_gets_app; [|reflexivity].
  cbn. rewrite app_nil_r. reflexivity.
Qed.

(** The import, in every world: it adds no request, and a key it returns
    is the text the table holds. *)
Lemma import_cases (w : world) :
  http_gets (trace (snd (import_fred_key w initial))) = []
  /\ forall key, fst (import_fred_key w initial) = Returns key ->
       db_fetchone w = inr (Some (SqlText key)) /\ key <> "".
Proof.
  destruct (pyodbc_installed w) eqn:Hi.
  - rewrite (import_is_lookup w initial Hi).
    destruct (lookup_cases w initial)
      as (t & Ht & Hs & [(k & H & Hrow & Hne) | (e & H & _)]);
      rewrite Hs; cbn [trace initial app]; split;
      try (apply http_gets_no_network, Ht); intros key Hk; rewrite H in Hk.
    + injection Hk as <-. split; assumption.
    + discriminate.
  - rewrite (import_without_driver w initial Hi). split; [reflexivity|].
    intros key Hk. discriminate.
Qed.

Lemma regression_script_run (w : world) (s : state) :
  regression_script w s =
    match import_fred_key w s with
    | (Raises e, s0) => (Raises e, s0)
    | (Returns key, s0) =>
        match pull (fred_get w key) cpi_series_id "pc1"
                   (nl ++ " CPI observations YoY% (first 5 rows):") s0 with
        | (Raises e, s1) => (Raises e, s1)
        | (Returns cpi_df, s1) =>
            match pull (fred_get w key) unemp_series_id "lin"
                       (nl ++ " Unemployment % observations (first 5 rows):")
                       s1 with
            | (Raises e, s2) => (Raises e, s2)
            | (Returns unemp_df, s2) =>
                match fit w (merge cpi_df unemp_df) with
                | Raises e =>
                    (Raises e,
                     mkState (dicts s2)
                       (trace s2
                        ++ [EvPrint (nl ++ " Merged data (first 5 rows):");
                            EvPrintMerged
                              (firstn 5 (merge cpi_df unemp_df))]))
                | Returns reg =>
                    (Returns reg,
                     mkState (dicts s2)
                       (trace s2
                        ++ [EvPrint (nl ++ " Merged data (first 5 rows):");
                            EvPrintMerged (firstn 5 (merge cpi_df unemp_df));
                            EvPrintFit (intercept_ reg) (coef_ reg);
                            EvPlot (merge cpi_df unemp_df)
                                   (intercept_ reg) (coef_ reg)]))
                end
            end
        end
    end.
Proof.
  unfold regression_script. unfold bind at 1.
  destruct (import_fred_key w s) as [[key|e] s0]; [|reflexivity].
  unfold bind at 1. destruct (pull _ _ _ _ s0) as [[cpi_df|e] s1]; [|reflexivity].
  unfold bind at 1. destruct (pull _ _ _ _ s1) as [[unemp_df|e] s2]; [|reflexivity].
  cbv zeta. unfold bind, print, emit, lift, ret.
  destruct (fit w (merge cpi_df unemp_df)) as [reg|e]; cbn [dicts trace];
    rewrite <- !app_assoc; reflexivity.
Qed.

Lemma phillips_script_run (w : world) (s : state) :
  phillips_script w s =
    match import_fred_key w s with
    | (Raises e, s0) => (Raises e, s0)
    | (Returns key, s0) =>
        match pull (fred_get_phillips w key) "CPIAUCSL" "pc1"
                   (nl ++ "✅ CPI observations YoY% (first 5 rows):") s0 with
        | (Raises e, s1) => (Raises e, s1)
        | (Returns _, s1) =>
            pull (fred_get_phillips w key) "UNRATE" "lin"
                 (nl ++ "✅ Unemployment % observations (first 5 rows):") s1
        end
    end.
Proof.
  unfold phillips_script. unfold bind at 1.
  destruct (import_fred_key w s) as [[key|e] s0]; [|reflexivity].
  unfold bind at 1. destruct (pull _ _ _ _ s0) as [[cpi_df|e] s1]; reflexivity.
Qed.

(** X19.  Whatever the database and the server do, a run of either script
    sends at most two requests, both to the observations address: first
    the one for CPIAUCSL in units pc1, then, only after it, the one for
    UNRATE in units lin.  Each carries the six fixed parameters and the
    credential, and the credential is the text read from the table. *)
Theorem script_requests (w : world) :
  exists key,
    http_gets (trace (snd (regression_script w initial)))
      `prefix_of` [(observations_url, sent_params key "CPIAUCSL" "pc1");
                   (observations_url, sent_params key "UNRATE" "lin")]
    /\ http_gets (trace (snd (phillips_script w initial)))
         `prefix_of` [(observations_url, sent_params key "CPIAUCSL" "pc1");
                      (observations_url, sent_params key "UNRATE" "lin")]
    /\ (http_gets (trace (snd (regression_script w initial))) <> []
        \/ http_gets (trace (snd (phillips_script w initial))) <> [] ->
        db_fetchone w = inr (Some (SqlText key)) /\ key <> "").
Proof.
  destruct (import_cases w) as [Hg Hkey].
  rewrite regression_script_run, phillips_script_run.
  destruct (import_fred_key w initial) as [[key|e] s0]; cbn [fst snd] in *.
  2:{ exists "". rewrite Hg. split; [apply prefix_nil|].
      split; [apply prefix_nil|]. intros [H | H]; contradiction. }
  exists key.
  pose proof (pull_gets "" w key "CPIAUCSL" "pc1"
                (nl ++ " CPI observations YoY% (first 5 rows):") s0) as H1.
  pose proof (pull_gets "❌" w key "CPIAUCSL" "pc1"
                (nl ++ "✅ CPI observations YoY% (first 5 rows):") s0) as P1.
  rewrite Hg in H1, P1. cbn [app] in H1, P1.
  split; [|split; [|intros _; apply Hkey; reflexivity]].
  - change (fred_get w key) with (fred_get_marked "" w key).
    change cpi_series_id with "CPIAUCSL". change unemp_series_id with "UNRATE".
    destruct (pull (fred_get_marked "" w key) "CPIAUCSL" "pc1" _ s0)
      as [[cpi_df|e] s1]; cbn [snd] in H1 |- *;
      [|rewrite H1; eexists; reflexivity].
    pose proof (pull_gets "" w key "UNRATE" "lin"
                  (nl ++ " Unemployment % observations (first 5 rows):") s1)
      as H2.
    rewrite H1 in H2. cbn [app] in H2.
    destruct (pull (fred_get_marked "" w key) "UNRATE" "lin" _ s1)
      as [[unemp_df|e] s2]; cbn [snd] in H2 |- *; [|rewrite H2; reflexivity].
    destruct (fit w (merge cpi_df unemp_df)); cbn [snd trace];
      rewrite http_gets_app, H2; cbn; reflexivity.
  - change (fred_get_phillips w key) with (fred_get_marked "❌" w key).
    destruct (pull (fred_get_marked "❌" w key) "CPIAUCSL" "pc1" _ s0)
      as [[cpi_df|e] s1]; cbn [snd] in P1 |- *;
      [|rewrite P1; eexists; reflexivity].
    pose proof (pull_gets "❌" w key "UNRATE" "lin"
                  (nl ++ "✅ Unemployment % observations (first 5 rows):") s1)
      as P2.
    rewrite P1 in P2. cbn [app] in P2. rewrite P2. reflexivity.
Qed.

(** A fetch-and-load block that returns a series got a good answer. *)
Lemma pull_returns (mark : string) (w : world) (key sid units title : string)
    (s s' : state) (df : Series) :
  pull (fred_get_marked mark w key) sid units title s = (Returns df, s') ->
  exists r p obs,
    http w (trace s) observations_url (sent_params key sid units)
      = HttpAnswer r
    /\ error_status r = false
    /\ json_body r = JsonObject p
    /\ observations p = Some obs
    /\ load_series obs = Returns df.
Proof.
  rewrite pull_run. cbv zeta.
  destruct (http w (trace s) observations_url (sent_params key sid units))
    as [r|msg]; [|discriminate].
  destruct (error_status r) eqn:He; [discriminate|].
  destruct (json_body r) as [msg|p|msg] eqn:Hj; [discriminate| |discriminate].
  destruct (observations p) as [obs|] eqn:Ho; [|discriminate].
  destruct (load_series obs) as [df'|e] eqn:Hl; [|discriminate].
  intros [= <- _]. exists r, p, obs. auto.
Qed.

(** X20.  When the regression script ends with a fit, the database gave a
    key, the server answered both requests with a status that is no error
    (below 400 or above 599) and a body that decodes to an object with an
    [observations] array, both arrays loaded, and the result is the fit of
    the merge of the two loaded series, CPI as predictor.  Exactly two
    requests were sent. *)
Theorem regression_script_success (w : world) (reg : FitResult) :
  fst (regression_script w initial) = Returns reg ->
  exists key h1 h2 r1 r2 p1 p2 obs1 obs2 cpi_df unemp_df,
    db_fetchone w = inr (Some (SqlText key))
    /\ http_gets h1 = []
    /\ http w h1 observations_url (sent_params key "CPIAUCSL" "pc1")
       = HttpAnswer r1
    /\ http_gets h2 = [(observations_url, sent_params key "CPIAUCSL" "pc1")]
    /\ http w h2 observations_url (sent_params key "UNRATE" "lin")
       = HttpAnswer r2
    /\ error_status r1 = false /\ error_status r2 = false
    /\ json_body r1 = JsonObject p1 /\ observations p1 = Some obs1
    /\ json_body r2 = JsonObject p2 /\ observations p2 = Some obs2
    /\ load_series obs1 = Returns cpi_df
    /\ load_series obs2 = Returns unemp_df
    /\ fit w (merge cpi_df unemp_df) = Returns reg
    /\ http_gets (trace (snd (regression_script w initial)))
       = [(observations_url, sent_params key "CPIAUCSL" "pc1");
          (observations_url, sent_params key "UNRATE" "lin")].
Proof.
  destruct (import_cases w) as [Hg Hkey].
  rewrite regression_script_run.
  destruct (import_fred_key w initial) as [[key|e] s0]; cbn [fst snd] in *;
    [|discriminate].
  destruct (Hkey key eq_refl) as [Hrow _].
  change (fred_get w key) with (fred_get_marked "" w key).
  change cpi_series_id with "CPIAUCSL". change unemp_series_id with "UNRATE".
  pose proof (pull_gets "" w key "CPIAUCSL" "pc1"
                (nl ++ " CPI observations YoY% (first 5 rows):") s0) as H1.
  rewrite Hg in H1. cbn [app] in H1.
  destruct (pull (fred_get_marked "" w key) "CPIAUCSL" "pc1" _ s0)
    as [[cpi_df|e] s1] eqn:Hp1; cbn [snd] in H1 |- *; [|discriminate].
  pose proof (pull_gets "" w key "UNRATE" "lin"
                (nl ++ " Unemployment % observations (first 5 rows):") s1)
    as H2.
  rewrite H1 in H2. cbn [app] in H2.
  destruct (pull (fred_get_marked "" w key) "UNRATE" "lin" _ s1)
    as [[unemp_df|e] s2] eqn:Hp2; cbn [snd] in H2 |- *; [|discriminate].
  destruct (fit w (merge cpi_df unemp_df)) as [reg'|e] eqn:Hfit; [|discriminate].
  intros [= <-].
  apply pull_returns in Hp1 as (r1 & p1 & obs1 & Ha1 & He1 & Hj1 & Ho1 & Hl1).
  apply pull_returns in Hp2 as (r2 & p2 & obs2 & Ha2 & He2 & Hj2 & Ho2 & Hl2).
  exists key, (trace s0), (trace s1), r1, r2, p1, p2, obs1, obs2, cpi_df,
    unemp_df.
  repeat (split; [assumption|]).
  cbn [snd trace]. rewrite http_gets_app, H2. reflexivity.
Qed.

Lemma regression_script_success_witness :
  exists reg,
    fst (regression_script w_ok initial) = Returns reg
    /\ exists key h1 h2 r1 r2 p1 p2 obs1 obs2 cpi_df unemp_df,
         db_fetchone w_ok = inr (Some (SqlText key))
         /\ http_gets h1 = []
         /\ http w_ok h1 observations_url (sent_params key "CPIAUCSL" "pc1")
            = HttpAnswer r1
         /\ http_gets h2
            = [(observations_url, sent_params key "CPIAUCSL" "pc1")]
         /\ http w_ok h2 observations_url (sent_params key "UNRATE" "lin")
            = HttpAnswer r2
         /\ error_status r1 = false /\ error_status r2 = false
         /\ json_body r1 = JsonObject p1 /\ observations p1 = Some obs1
         /\ json_body r2 = JsonObject p2 /\ observations p2 = Some obs2
         /\ load_series obs1 = Returns cpi_df
         /\ load_series obs2 = Returns unemp_df
         /\ fit w_ok (merge cpi_df unemp_df) = Returns reg
         /\ http_gets (trace (snd (regression_script w_ok initial)))
            = [(observations_url, sent_params key "CPIAUCSL" "pc1");
               (observations_url, sent_params key "UNRATE" "lin")].
Proof.
  eexists. split; [vm_compute; reflexivity|].
  apply (regression_script_success w_ok). vm_compute. reflexivity.
Defined.

(** ** The plotted line *)







(** ** A malformed answer *)

(** X22.  An answer with a good status whose body is not JSON, or is a
    JSON value other than an object, or is an object without an
    [observations] member, stops the fetch-and-load block of either script
    right after the request: the error is the decoder's [ValueError], the
    [TypeError] of the subscript, or the [KeyError] for [observations]; no
    frame is built and nothing is printed. *)
Theorem pull_malformed_response (mark : string) (w : world)
    (key sid units title : string) (s : state) (r : Response) :
  http w (trace s) observations_url (sent_params key sid units)
    = HttpAnswer r ->
  error_status r = false ->
  (forall p obs, json_body r = JsonObject p -> observations p <> Some obs) ->
  fst (pull (fred_get_marked mark w key) sid units title s)
    = Raises (match json_body r with
              | NotJson msg => ValueError msg
              | JsonOther msg => TypeError msg
              | JsonObject _ => KeyError "observations"
              end)
  /\ trace (snd (pull (fred_get_marked mark w key) sid units title s))
     = (trace s
        ++ [EvHttpGet observations_url (sent_params key sid units)])%list.
Proof.
  intros Ha He Hbad. rewrite pull_run. cbv zeta. rewrite Ha, He.
  destruct (json_body r) as [msg|p|msg] eqn:Hj;
    [split; reflexivity| |split; reflexivity].
  destruct (observations p) as [obs|] eqn:Ho; [|split; reflexivity].
  exfalso. apply (Hbad p obs eq_refl Ho).
Qed.

Lemma pull_malformed_response_witness :
  (fst (pull (fred_get (world_of (Some (SqlText "abcdef")) html_page)
                       "abcdef")
             cpi_series_id "pc1" "title" initial)
     = Raises (ValueError "Expecting value: line 1 column 1 (char 0)")
   /\ trace (snd (pull (fred_get (world_of (Some (SqlText "abcdef"))
                                    html_page)
                                 "abcdef")
                       cpi_series_id "pc1" "title" initial))
      = (trace initial
         ++ [EvHttpGet observations_url
               (sent_params "abcdef" cpi_series_id "pc1")])%list)
  /\ fst (pull (fred_get (world_of (Some (SqlText "abcdef")) json_array)
                         "abcdef")
               cpi_series_id "pc1" "title" initial)
     = Raises (TypeError "list indices must be integers or slices, not str").
Proof.
  split.
  - apply (pull_malformed_response ""
             (world_of (Some (SqlText "abcdef")) html_page)
             "abcdef" cpi_series_id "pc1" "title" initial
             html_page eq_refl eq_refl).
    intros p obs H. discriminate H.
  - apply (pull_malformed_response ""
             (world_of (Some (SqlText "abcdef")) json_array)
             "abcdef" cpi_series_id "pc1" "title" initial
             json_array eq_refl eq_refl).
    intros p obs H. discriminate H.
Defined.
